(** * OAuth authorization-server bootstrap logic of the MCP Python SDK

    A shallow embedding of [mcp/server/auth/provider.py] and
    [mcp/server/auth/routes.py]: the issuer-URL validator, the metadata
    builder, the route-table assembler and the redirect-URI helper.

    A Python [str] is a Rocq string holding its UTF-8 encoding, so that an
    ASCII text is itself and a character outside ASCII is the two to four
    bytes of its encoding; [len] and iteration count characters, not bytes.
    The places where Python consults Unicode tables are pointed out where
    they occur.  A Python call that may raise returns a [result]. *)

From Stdlib Require Import String Ascii List ZArith NArith Bool Lia.
Import ListNotations.

Open Scope list_scope.
Open Scope string_scope.

(** ** Exceptions and fallible computations *)

Inductive exn : Type :=
| ValueError (msg : string).

Inductive result (A : Type) : Type :=
| Ok (a : A)
| Raise (e : exn).

Arguments Ok {A} a.
Arguments Raise {A} e.

Definition bind {A B : Type} (r : result A) (k : A -> result B) : result B :=
  match r with
  | Ok a => k a
  | Raise e => Raise e
  end.

Notation "x <- r ;; k" := (bind r (fun x => k))
  (at level 61, r at next level, right associativity).
Notation "r ;;; k" := (bind r (fun _ => k))
  (at level 61, right associativity).

(** [raises r] : the call did not return. *)
Definition raises {A : Type} (r : result A) : Prop :=
  exists e, r = Raise e.

(** Running a fallible step over a list, left to right, stopping at the
    first exception (a [for] loop or comprehension whose body may raise). *)
Fixpoint for_each {A B : Type} (f : A -> result (list B)) (l : list A)
  : result (list B) :=
  match l with
  | [] => Ok []
  | a :: l' => bs <- f a ;; rest <- for_each f l' ;; Ok (bs ++ rest)%list
  end.

(** ** The methods of Python's [str] that the two modules use *)

Module Str.

(** [c in chars] *)
Fixpoint contains (chars : string) (c : ascii) : bool :=
  match chars with
  | EmptyString => false
  | String a chars' => Ascii.eqb a c || contains chars' c
  end.

(** [bool(s)]: a string is truthy when it is not empty. *)
Definition truthy (s : string) : bool :=
  match s with
  | EmptyString => false
  | String _ _ => true
  end.

(** [s.startswith(p)] *)
Definition startswith (s p : string) : bool := String.prefix p s.

(** [s.lstrip(chars)] *)
Fixpoint lstrip (chars s : string) : string :=
  match s with
  | EmptyString => EmptyString
  | String a s' => if contains chars a then lstrip chars s' else s
  end.

(** [s.rstrip(chars)] *)
Fixpoint rstrip (chars s : string) : string :=
  match s with
  | EmptyString => EmptyString
  | String a s' =>
      match rstrip chars s' with
      | EmptyString =>
          if contains chars a then EmptyString else String a EmptyString
      | r => String a r
      end
  end.

(** [s.replace(a, b)] for one-character [a] and [b] *)
Fixpoint replace (a b : ascii) (s : string) : string :=
  match s with
  | EmptyString => EmptyString
  | String c s' =>
      String (if Ascii.eqb c a then b else c) (replace a b s')
  end.

(** [s.replace(a, "")] for a one-character [a] *)
Fixpoint remove (a : ascii) (s : string) : string :=
  match s with
  | EmptyString => EmptyString
  | String c s' =>
      if Ascii.eqb c a then remove a s' else String c (remove a s')
  end.

(** [s.partition(sep)] for a one-character [sep]: the text before the
    first [sep] and, when there is one, the text after it. *)
Fixpoint partition (sep : ascii) (s : string) : string * option string :=
  match s with
  | EmptyString => (EmptyString, None)
  | String c s' =>
      if Ascii.eqb c sep then (EmptyString, Some s')
      else let '(before, after) := partition sep s' in
           (String c before, after)
  end.

(** [s.split(sep)] for a one-character [sep] *)
Fixpoint split (sep : ascii) (s : string) : list string :=
  match s with
  | EmptyString => [EmptyString]
  | String c s' =>
      if Ascii.eqb c sep then EmptyString :: split sep s'
      else match split sep s' with
           | h :: t => String c h :: t
           | [] => [String c EmptyString]
           end
  end.

(** [sep.join(l)] *)
Fixpoint join (sep : string) (l : list string) : string :=
  match l with
  | [] => EmptyString
  | [s] => s
  | s :: l' => s ++ sep ++ join sep l'
  end.

(** [s.isascii()] *)
Definition isascii (s : string) : bool :=
  forallb (fun c => (N_of_ascii c <? 128)%N) (list_ascii_of_string s).

(** A continuation byte of a UTF-8 sequence: 80 to BF. *)
Definition is_continuation (c : ascii) : bool :=
  (128 <=? N_of_ascii c)%N && (N_of_ascii c <? 192)%N.

(** Iterating a string yields its characters as one-character strings.  A
    character is a first byte with the continuation bytes that follow it. *)
Fixpoint iter (s : string) : list string :=
  match s with
  | EmptyString => []
  | String c s' =>
      match iter s' with
      | (String d _ as h) :: t =>
          if is_continuation d then String c h :: t
          else String c EmptyString :: h :: t
      | t => String c EmptyString :: t
      end
  end.

(** [len(s)]: the number of characters. *)
Definition len (s : string) : nat := List.length (iter s).

Definition is_upper (c : ascii) : bool :=
  (65 <=? N_of_ascii c)%N && (N_of_ascii c <=? 90)%N.
Definition is_lower (c : ascii) : bool :=
  (97 <=? N_of_ascii c)%N && (N_of_ascii c <=? 122)%N.
Definition is_digit (c : ascii) : bool :=
  (48 <=? N_of_ascii c)%N && (N_of_ascii c <=? 57)%N.
Definition is_alpha (c : ascii) : bool := is_upper c || is_lower c.

(** [s.lower()] *)
Fixpoint lower (s : string) : string :=
  match s with
  | EmptyString => EmptyString
  | String c s' =>
      String (if is_upper c then ascii_of_N (N_of_ascii c + 32) else c)
             (lower s')
  end.

(** [s.upper()] *)
Fixpoint upper (s : string) : string :=
  match s with
  | EmptyString => EmptyString
  | String c s' =>
      String (if is_lower c then ascii_of_N (N_of_ascii c - 32) else c)
             (upper s')
  end.

(** The longest prefix without a character of [chars], and the rest. *)
Fixpoint span_until (chars s : string) : string * string :=
  match s with
  | EmptyString => (EmptyString, EmptyString)
  | String c s' =>
      if contains chars c then (EmptyString, s)
      else let '(a, b) := span_until chars s' in (String c a, b)
  end.

End Str.

(** [x or ""] and [bool(x)] for an [Optional[str]] *)
Definition or_empty (x : option string) : string :=
  match x with
  | Some s => s
  | None => EmptyString
  end.

Definition truthy_opt (x : option string) : bool :=
  match x with
  | Some s => Str.truthy s
  | None => false
  end.

(** ** URLs as pydantic presents them

    [routes.py] receives the issuer as a pydantic [AnyHttpUrl] and reads it
    only through its attributes.  pydantic is a third-party library; what
    follows models the part of its behaviour the module relies on. *)

Module pydantic.

(** The attributes of an [AnyHttpUrl].  pydantic hands out a URL already
    normalised: the scheme is in lower case, [port] carries the scheme's
    default when the text gave none, and the path of a URL written without
    one is ["/"]. *)
Record AnyHttpUrl : Type := {
  scheme : string;
  username : option string;
  password : option string;
  host : option string;
  port : option Z;
  path : option string;
  query : option string;
  fragment : option string
}.

(** [AnyHttpUrl.build(scheme=..., ...)]: the library writes the parts out
    as [scheme://userinfo@host:port], then a ["/"] followed by the given
    path, then [?query] and [#fragment] when given, and parses that text
    again.  Parsing gives the parts back, with the ["/"] in front of the
    path, as long as the path handed over has no ['?'], no ['#'], no
    character that needs escaping and no dot segment; [build_metadata]
    hands over the path of a parsed URL followed by letters, which has
    none.  For any other path this record is not what the library
    returns. *)
Definition build (scheme : string) (username password host : option string)
  (port : option Z) (path : string) (query fragment : option string)
  : AnyHttpUrl :=
  {| scheme := scheme;
     username := username;
     password := password;
     host := host;
     port := port;
     path := Some ("/" ++ path);
     query := query;
     fragment := fragment |}.

Definition default_port (scheme : string) : option Z :=
  if String.eqb scheme "https" then Some 443%Z
  else if String.eqb scheme "http" then Some 80%Z
  else None.

Definition digit (d : Z) : string :=
  String (ascii_of_N (48 + Z.to_N d)) EmptyString.

Fixpoint decimal_aux (fuel : nat) (n : Z) (acc : string) : string :=
  match fuel with
  | O => acc
  | S fuel' =>
      if (n <? 10)%Z then digit n ++ acc
      else decimal_aux fuel' (n / 10)%Z (digit (n mod 10)%Z ++ acc)
  end.

(** A port number in decimal; five digits cover the 16-bit range. *)
Definition decimal (n : Z) : string := decimal_aux 5 n EmptyString.

(** [str(url)]: the text of a URL, the port left out when it is the
    scheme's default. *)
Definition unicode_string (u : AnyHttpUrl) : string :=
  scheme u ++ "://"
  ++ match username u, password u with
     | Some n, Some p => n ++ ":" ++ p ++ "@"
     | Some n, None => n ++ "@"
     | None, Some p => ":" ++ p ++ "@"
     | None, None => EmptyString
     end
  ++ or_empty (host u)
  ++ match port u with
     | Some p =>
         match default_port (scheme u) with
         | Some d => if (p =? d)%Z then EmptyString else ":" ++ decimal p
         | None => ":" ++ decimal p
         end
     | None => EmptyString
     end
  ++ or_empty (path u)
  ++ match query u with Some q => "?" ++ q | None => EmptyString end
  ++ match fragment u with Some f => "#" ++ f | None => EmptyString end.

End pydantic.

Import pydantic.

(** ** [mcp/server/auth/routes.py] *)

(** [validate_issuer_url]: returns normally or raises [ValueError]. *)
Definition validate_issuer_url (url : AnyHttpUrl) : result unit :=
  (* RFC 8414 requires HTTPS, but we allow localhost HTTP for testing *)
  if negb (String.eqb (scheme url) "https")
     && negb (match host url with
              | Some h => String.eqb h "localhost"
              | None => false
              end)
     && negb (match host url with
              | Some h => Str.startswith h "127.0.0.1"
              | None => false
              end)
  then Raise (ValueError "Issuer URL must be HTTPS")
  (* No fragments or query parameters allowed *)
  else if truthy_opt (fragment url)
  then Raise (ValueError "Issuer URL must not have a fragment")
  else if truthy_opt (query url)
  then Raise (ValueError "Issuer URL must not have a query string")
  else Ok tt.

Definition AUTHORIZATION_PATH : string := "/authorize".
Definition TOKEN_PATH : string := "/token".
Definition REGISTRATION_PATH : string := "/register".
Definition REVOCATION_PATH : string := "/revoke".

Definition modify_url_path (url : AnyHttpUrl) (path_mapper : string -> string)
  : AnyHttpUrl :=
  build (scheme url) (username url) (password url) (host url) (port url)
        (path_mapper (or_empty (path url)))
        (query url) (fragment url).

(** [ClientRegistrationOptions] and [RevocationOptions] are declared in
    [mcp/server/auth/settings.py]; this module reads their [enabled] flag
    only. *)
Record ClientRegistrationOptions : Type := {
  registration_enabled : bool
}.

Record RevocationOptions : Type := {
  revocation_enabled : bool
}.

(** [OAuthMetadata] is declared in [mcp/shared/auth.py]; the fields are the
    ones [build_metadata] sets.  A field holding [None] is absent from the
    discovery document. *)
Record OAuthMetadata : Type := {
  issuer : AnyHttpUrl;
  authorization_endpoint : AnyHttpUrl;
  token_endpoint : AnyHttpUrl;
  registration_endpoint : option AnyHttpUrl;
  scopes_supported : option (list string);
  response_types_supported : list string;
  response_modes_supported : option (list string);
  grant_types_supported : option (list string);
  token_endpoint_auth_methods_supported : option (list string);
  token_endpoint_auth_signing_alg_values_supported : option (list string);
  service_documentation : option AnyHttpUrl;
  ui_locales_supported : option (list string);
  op_policy_uri : option AnyHttpUrl;
  op_tos_uri : option AnyHttpUrl;
  revocation_endpoint : option AnyHttpUrl;
  revocation_endpoint_auth_methods_supported : option (list string);
  introspection_endpoint : option AnyHttpUrl;
  code_challenge_methods_supported : option (list string)
}.

(** Attribute assignment on a metadata object. *)
Definition set_registration_endpoint (m : OAuthMetadata) (u : AnyHttpUrl)
  : OAuthMetadata :=
  {| issuer := issuer m;
     authorization_endpoint := authorization_endpoint m;
     token_endpoint := token_endpoint m;
     registration_endpoint := Some u;
     scopes_supported := scopes_supported m;
     response_types_supported := response_types_supported m;
     response_modes_supported := response_modes_supported m;
     grant_types_supported := grant_types_supported m;
     token_endpoint_auth_methods_supported :=
       token_endpoint_auth_methods_supported m;
     token_endpoint_auth_signing_alg_values_supported :=
       token_endpoint_auth_signing_alg_values_supported m;
     service_documentation := service_documentation m;
     ui_locales_supported := ui_locales_supported m;
     op_policy_uri := op_policy_uri m;
     op_tos_uri := op_tos_uri m;
     revocation_endpoint := revocation_endpoint m;
     revocation_endpoint_auth_methods_supported :=
       revocation_endpoint_auth_methods_supported m;
     introspection_endpoint := introspection_endpoint m;
     code_challenge_methods_supported := code_challenge_methods_supported m |}.

Definition set_revocation_endpoint (m : OAuthMetadata) (u : AnyHttpUrl)
  : OAuthMetadata :=
  {| issuer := issuer m;
     authorization_endpoint := authorization_endpoint m;
     token_endpoint := token_endpoint m;
     registration_endpoint := registration_endpoint m;
     scopes_supported := scopes_supported m;
     response_types_supported := response_types_supported m;
     response_modes_supported := response_modes_supported m;
     grant_types_supported := grant_types_supported m;
     token_endpoint_auth_methods_supported :=
       token_endpoint_auth_methods_supported m;
     token_endpoint_auth_signing_alg_values_supported :=
       token_endpoint_auth_signing_alg_values_supported m;
     service_documentation := service_documentation m;
     ui_locales_supported := ui_locales_supported m;
     op_policy_uri := op_policy_uri m;
     op_tos_uri := op_tos_uri m;
     revocation_endpoint := Some u;
     revocation_endpoint_auth_methods_supported :=
       revocation_endpoint_auth_methods_supported m;
     introspection_endpoint := introspection_endpoint m;
     code_challenge_methods_supported := code_challenge_methods_supported m |}.

Definition set_revocation_endpoint_auth_methods_supported
  (m : OAuthMetadata) (l : list string) : OAuthMetadata :=
  {| issuer := issuer m;
     authorization_endpoint := authorization_endpoint m;
     token_endpoint := token_endpoint m;
     registration_endpoint := registration_endpoint m;
     scopes_supported := scopes_supported m;
     response_types_supported := response_types_supported m;
     response_modes_supported := response_modes_supported m;
     grant_types_supported := grant_types_supported m;
     token_endpoint_auth_methods_supported :=
       token_endpoint_auth_methods_supported m;
     token_endpoint_auth_signing_alg_values_supported :=
       token_endpoint_auth_signing_alg_values_supported m;
     service_documentation := service_documentation m;
     ui_locales_supported := ui_locales_supported m;
     op_policy_uri := op_policy_uri m;
     op_tos_uri := op_tos_uri m;
     revocation_endpoint := revocation_endpoint m;
     revocation_endpoint_auth_methods_supported := Some l;
     introspection_endpoint := introspection_endpoint m;
     code_challenge_methods_supported := code_challenge_methods_supported m |}.

Definition build_metadata
  (issuer_url : AnyHttpUrl)
  (service_documentation_url : option AnyHttpUrl)
  (client_registration_options : ClientRegistrationOptions)
  (revocation_options : RevocationOptions) : OAuthMetadata :=
  let authorization_url :=
    modify_url_path issuer_url
      (fun path => Str.rstrip "/" path ++ Str.lstrip "/" AUTHORIZATION_PATH) in
  let token_url :=
    modify_url_path issuer_url
      (fun path => Str.rstrip "/" path ++ Str.lstrip "/" TOKEN_PATH) in
  (* Create metadata *)
  let metadata :=
    {| issuer := issuer_url;
       authorization_endpoint := authorization_url;
       token_endpoint := token_url;
       registration_endpoint := None;
       scopes_supported := None;
       response_types_supported := ["code"];
       response_modes_supported := None;
       grant_types_supported := Some ["authorization_code"; "refresh_token"];
       token_endpoint_auth_methods_supported := Some ["client_secret_post"];
       token_endpoint_auth_signing_alg_values_supported := None;
       service_documentation := service_documentation_url;
       ui_locales_supported := None;
       op_policy_uri := None;
       op_tos_uri := None;
       revocation_endpoint := None;
       revocation_endpoint_auth_methods_supported := None;
       introspection_endpoint := None;
       code_challenge_methods_supported := Some ["S256"] |} in
  (* Add registration endpoint if supported *)
  let metadata :=
    if registration_enabled client_registration_options
    then set_registration_endpoint metadata
           (modify_url_path issuer_url
              (fun path =>
                 Str.rstrip "/" path ++ Str.lstrip "/" REGISTRATION_PATH))
    else metadata in
  (* Add revocation endpoint if supported *)
  let metadata :=
    if revocation_enabled revocation_options
    then set_revocation_endpoint_auth_methods_supported
           (set_revocation_endpoint metadata
              (modify_url_path issuer_url
                 (fun path =>
                    Str.rstrip "/" path ++ Str.lstrip "/" REVOCATION_PATH)))
           ["client_secret_post"]
    else metadata in
  metadata.

(** The names of the fields a metadata object carries a value for, in
    declaration order: the keys of the encoded discovery document. *)
Definition present {A : Type} (name : string) (x : option A) : list string :=
  match x with
  | Some _ => [name]
  | None => []
  end.

Definition present_fields (m : OAuthMetadata) : list string :=
  (["issuer"; "authorization_endpoint"; "token_endpoint"]
  ++ present "registration_endpoint" (registration_endpoint m)
  ++ present "scopes_supported" (scopes_supported m)
  ++ ["response_types_supported"]
  ++ present "response_modes_supported" (response_modes_supported m)
  ++ present "grant_types_supported" (grant_types_supported m)
  ++ present "token_endpoint_auth_methods_supported"
       (token_endpoint_auth_methods_supported m)
  ++ present "token_endpoint_auth_signing_alg_values_supported"
       (token_endpoint_auth_signing_alg_values_supported m)
  ++ present "service_documentation" (service_documentation m)
  ++ present "ui_locales_supported" (ui_locales_supported m)
  ++ present "op_policy_uri" (op_policy_uri m)
  ++ present "op_tos_uri" (op_tos_uri m)
  ++ present "revocation_endpoint" (revocation_endpoint m)
  ++ present "revocation_endpoint_auth_methods_supported"
       (revocation_endpoint_auth_methods_supported m)
  ++ present "introspection_endpoint" (introspection_endpoint m)
  ++ present "code_challenge_methods_supported"
       (code_challenge_methods_supported m))%list.

Section RouteTable.

(** Any implementation of the [OAuthServerProvider] protocol; the assembler
    only passes it on to the handlers. *)
Variable OAuthServerProvider : Type.

(** What [ClientRegistrationOptions()] and [RevocationOptions()] construct:
    the defaults declared in [settings.py]. *)
Variable default_client_registration_options : ClientRegistrationOptions.
Variable default_revocation_options : RevocationOptions.

Record ClientAuthenticator : Type := {
  authenticator_provider : OAuthServerProvider
}.

(** The [handle] method of each handler, bound to the handler's state. *)
Inductive Endpoint : Type :=
| MetadataHandler (metadata : OAuthMetadata)
| AuthorizationHandler (provider : OAuthServerProvider)
| TokenHandler (provider : OAuthServerProvider)
    (client_authenticator : ClientAuthenticator)
| RegistrationHandler (provider : OAuthServerProvider)
    (options : ClientRegistrationOptions)
| RevocationHandler (provider : OAuthServerProvider)
    (client_authenticator : ClientAuthenticator).

(** The arguments of a call [Route(path, endpoint=..., methods=[...])];
    [methods] is the list given in the call. *)
Record Route : Type := {
  route_path : string;
  endpoint : Endpoint;
  methods : list string
}.

(** The methods a constructed route accepts: starlette's [Route] keeps the
    given methods in upper case and adds [HEAD] wherever [GET] is given. *)
Definition accepted_methods (r : Route) : list string :=
  let given := map Str.upper (methods r) in
  if existsb (String.eqb "GET") given then (given ++ ["HEAD"])%list
  else given.

Definition create_auth_routes
  (provider : OAuthServerProvider)
  (issuer_url : AnyHttpUrl)
  (service_documentation_url : option AnyHttpUrl)
  (client_registration_options : option ClientRegistrationOptions)
  (revocation_options : option RevocationOptions) : result (list Route) :=
  validate_issuer_url issuer_url ;;;
  let client_registration_options :=
    match client_registration_options with
    | Some o => o
    | None => default_client_registration_options
    end in
  let revocation_options :=
    match revocation_options with
    | Some o => o
    | None => default_revocation_options
    end in
  let metadata :=
    build_metadata issuer_url service_documentation_url
      client_registration_options revocation_options in
  let client_authenticator := {| authenticator_provider := provider |} in
  (* Create routes *)
  let routes :=
    [ {| route_path := "/.well-known/oauth-authorization-server";
         endpoint := MetadataHandler metadata;
         methods := ["GET"] |};
      {| route_path := AUTHORIZATION_PATH;
         endpoint := AuthorizationHandler provider;
         methods := ["GET"; "POST"] |};
      {| route_path := TOKEN_PATH;
         endpoint := TokenHandler provider client_authenticator;
         methods := ["POST"] |} ] in
  let routes :=
    if registration_enabled client_registration_options
    then (routes ++ [ {| route_path := REGISTRATION_PATH;
                         endpoint := RegistrationHandler provider
                                       client_registration_options;
                         methods := ["POST"] |} ])%list
    else routes in
  let routes :=
    if revocation_enabled revocation_options
    then (routes ++ [ {| route_path := REVOCATION_PATH;
                         endpoint := RevocationHandler provider
                                       client_authenticator;
                         methods := ["POST"] |} ])%list
    else routes in
  Ok routes.

(** What a route binds: its path and its methods. *)
Definition binding (r : Route) : string * list string :=
  (route_path r, methods r).

(** [binds routes p m]: the table has a route at path [p] that accepts
    method [m]. *)
Definition binds (routes : list Route) (p m : string) : Prop :=
  exists r, In r routes /\ route_path r = p /\ In m (methods r).

End RouteTable.

Arguments MetadataHandler {OAuthServerProvider} metadata.
Arguments AuthorizationHandler {OAuthServerProvider} provider.
Arguments TokenHandler {OAuthServerProvider} provider client_authenticator.
Arguments RegistrationHandler {OAuthServerProvider} provider options.
Arguments RevocationHandler {OAuthServerProvider} provider client_authenticator.
Arguments route_path {OAuthServerProvider} r.
Arguments endpoint {OAuthServerProvider} r.
Arguments methods {OAuthServerProvider} r.
Arguments accepted_methods {OAuthServerProvider} r.
Arguments binding {OAuthServerProvider} r.
Arguments binds {OAuthServerProvider} routes p m.
Arguments create_auth_routes {OAuthServerProvider}
  default_client_registration_options default_revocation_options
  provider issuer_url service_documentation_url
  client_registration_options revocation_options.

(** ** The functions of [urllib.parse] that [provider.py] calls

    These belong to Python's standard library (CPython 3.11, [Lib/urllib/
    parse.py], with the address checks of [Lib/ipaddress.py]); they are
    written out here so that the helper built on them can be evaluated.
    One step of the library is left outside: [_checknetloc], which applies
    Unicode normalisation to a network location that is not ASCII and does
    nothing to one that is. *)

Module urllib_parse.

Definition uses_netloc : list string :=
  [""; "ftp"; "http"; "gopher"; "nntp"; "telnet";
   "imap"; "wais"; "file"; "mms"; "https"; "shttp";
   "snews"; "prospero"; "rtsp"; "rtspu"; "rsync";
   "svn"; "svn+ssh"; "sftp"; "nfs"; "git"; "git+ssh";
   "ws"; "wss"].

Definition uses_params : list string :=
  [""; "ftp"; "hdl"; "prospero"; "http"; "imap";
   "https"; "shttp"; "rtsp"; "rtspu"; "sip"; "sips";
   "mms"; "sftp"; "tel"].

(** [s in l] for a list of strings *)
Definition mem (s : string) (l : list string) : bool :=
  existsb (String.eqb s) l.

(** Characters valid in scheme names *)
Definition scheme_chars : string :=
  "abcdefghijklmnopqrstuvwxyzABCDEFGHIJKLMNOPQRSTUVWXYZ0123456789+-.".

(** Leading C0 control and space to be stripped: the characters 0 to 32. *)
Definition WHATWG_C0_CONTROL_OR_SPACE : string :=
  string_of_list_ascii (map ascii_of_nat (seq 0 33)).

(** Unsafe characters to be removed: tab, carriage return, line feed. *)
Definition UNSAFE_URL_BYTES_TO_REMOVE : list ascii :=
  [ascii_of_nat 9; ascii_of_nat 13; ascii_of_nat 10].

Definition all_in (chars s : string) : bool :=
  forallb (Str.contains chars) (list_ascii_of_string s).

Record SplitResult : Type := {
  split_scheme : string;
  split_netloc : string;
  split_path : string;
  split_query : string;
  split_fragment : string
}.

Record ParseResult : Type := {
  scheme : string;
  netloc : string;
  path : string;
  params : string;
  query : string;
  fragment : string
}.

(** [_splitnetloc(url, 2)]: the text between the leading ["//"] and the
    first of ['/'], ['?'], ['#'], and the text from that delimiter on. *)
Definition splitnetloc (url : string) : string * string :=
  match url with
  | String _ (String _ rest) => Str.span_until "/?#" rest
  | _ => (EmptyString, EmptyString)
  end.

(** The text before and after the last [sep], when there is one. *)
Fixpoint rpartition (sep : ascii) (s : string) : option (string * string) :=
  match s with
  | EmptyString => None
  | String c s' =>
      match rpartition sep s' with
      | Some (a, b) => Some (String c a, b)
      | None => if Ascii.eqb c sep then Some (EmptyString, s') else None
      end
  end.

(** [repr(s)] of a string of printable or control ASCII characters, as it
    appears in error messages: in single quotes, or in double quotes when
    the text has a single quote and no double quote. *)
Definition double_quote : ascii := ascii_of_nat 34.

Definition hexdigit_lower (n : N) : ascii :=
  if (n <? 10)%N then ascii_of_N (48 + n) else ascii_of_N (87 + n).

Definition repr_char (quote c : ascii) : string :=
  let n := N_of_ascii c in
  if Ascii.eqb c quote || Ascii.eqb c "\" then String "\" (String c EmptyString)
  else if (n =? 9)%N then "\t"
  else if (n =? 10)%N then "\n"
  else if (n =? 13)%N then "\r"
  else if (n <? 32)%N || (n =? 127)%N
  then String "\" (String "x" (String (hexdigit_lower (n / 16))
                                 (String (hexdigit_lower (n mod 16))
                                    EmptyString)))
  else String c EmptyString.

Fixpoint repr_body (quote : ascii) (s : string) : string :=
  match s with
  | EmptyString => EmptyString
  | String c s' => repr_char quote c ++ repr_body quote s'
  end.

Definition repr (s : string) : string :=
  let quote :=
    if Str.contains s "'" && negb (Str.contains s double_quote)
    then double_quote else "'"%char in
  String quote (repr_body quote s) ++ String quote EmptyString.

(** *** The address checks of the [ipaddress] module *)

Definition decimal_value (s : string) : N :=
  fold_left (fun n c => (10 * n + (N_of_ascii c - 48))%N)
    (list_ascii_of_string s) 0%N.

(** [IPv4Address._parse_octet] returns. *)
Definition parse_octet (octet_str : string) : option N :=
  if negb (Str.truthy octet_str) then None
  else if negb (forallb Str.is_digit (list_ascii_of_string octet_str))
  then None
  else if (3 <? String.length octet_str)%nat then None
  else if negb (String.eqb octet_str "0") && Str.startswith octet_str "0"
  then None
  else if (255 <? decimal_value octet_str)%N then None
  else Some (decimal_value octet_str).

(** [IPv4Address(address)] returns; the result is the four octets. *)
Definition IPv4Address (address : string) : option (list N) :=
  if Str.contains address "/" then None
  else if negb (Str.truthy address) then None
  else let octets := Str.split "." address in
       if negb (List.length octets =? 4)%nat then None
       else if forallb (fun o => match parse_octet o with
                                 | Some _ => true
                                 | None => false
                                 end) octets
            then Some (map (fun o => match parse_octet o with
                                     | Some n => n
                                     | None => 0%N
                                     end) octets)
            else None.

(** ['%x' % n] for a number below 65536 *)
Definition hex_lower (n : N) : string :=
  let digits := [hexdigit_lower (n / 4096); hexdigit_lower (n / 256 mod 16);
                 hexdigit_lower (n / 16 mod 16); hexdigit_lower (n mod 16)] in
  match Str.lstrip "0" (string_of_list_ascii digits) with
  | EmptyString => "0"
  | t => t
  end.

Definition HEX_DIGITS : string := "0123456789ABCDEFabcdef".

(** [IPv6Address._parse_hextet] returns. *)
Definition parse_hextet (hextet_str : string) : bool :=
  forallb (Str.contains HEX_DIGITS) (list_ascii_of_string hextet_str)
  && (String.length hextet_str <=? 4)%nat
  && Str.truthy hextet_str.

(** The positions, counted from 1, of the empty parts among the inner
    parts of a list. *)
Fixpoint empty_positions (i : nat) (inner : list string) : list nat :=
  match inner with
  | [] => []
  | part :: inner' =>
      if Str.truthy part then empty_positions (S i) inner'
      else i :: empty_positions (S i) inner'
  end.

(** [IPv6Address._ip_int_from_string] returns. *)
Definition IPv6_int_from_string (ip_str : string) : bool :=
  if negb (Str.truthy ip_str) then false
  else
    let parts := Str.split ":" ip_str in
    (* An IPv6 address needs at least 2 colons (3 parts). *)
    if (List.length parts <? 3)%nat then false
    else
      (* If the address has an IPv4-style suffix, convert it. *)
      let last_part := List.last parts EmptyString in
      let converted :=
        if Str.contains last_part "."
        then match IPv4Address last_part with
             | Some [a; b; c; d] =>
                 Some (removelast parts
                       ++ [hex_lower (256 * a + b); hex_lower (256 * c + d)])%list
             | _ => None
             end
        else Some parts in
      match converted with
      | None => false
      | Some parts =>
          let n := List.length parts in
          (* An IPv6 address can't have more than 8 colons (9 parts). *)
          if (9 <? n)%nat then false
          else
            let first_part := List.hd EmptyString parts in
            let last_part := List.last parts EmptyString in
            match empty_positions 1 (removelast (List.tl parts)) with
            | _ :: _ :: _ => false  (* at most one '::' *)
            | [skip_index] =>
                let parts_hi := skip_index in
                let parts_lo := (n - skip_index - 1)%nat in
                let parts_hi :=
                  if Str.truthy first_part then parts_hi
                  else (parts_hi - 1)%nat in
                let parts_lo :=
                  if Str.truthy last_part then parts_lo
                  else (parts_lo - 1)%nat in
                if negb (Str.truthy first_part) && negb (parts_hi =? 0)%nat
                then false
                else if negb (Str.truthy last_part)
                        && negb (parts_lo =? 0)%nat
                then false
                else if (8 - (parts_hi + parts_lo) <? 1)%nat then false
                else forallb parse_hextet (firstn parts_hi parts)
                     && forallb parse_hextet (skipn (n - parts_lo) parts)
            | [] =>
                if negb (n =? 8)%nat then false
                else if negb (Str.truthy first_part) then false
                else if negb (Str.truthy last_part) then false
                else forallb parse_hextet parts
            end
      end.

(** [IPv6Address(address)] returns: the address may end in ['%'] and a
    scope. *)
Definition IPv6Address (address : string) : bool :=
  if Str.contains address "/" then false
  else match Str.partition "%" address with
       | (addr, Some scope_id) =>
           if negb (Str.truthy scope_id) || Str.contains scope_id "%"
           then false
           else IPv6_int_from_string addr
       | (addr, None) => IPv6_int_from_string addr
       end.

(** *** Bracketed hosts *)

(** The pattern [\Av[a-fA-F0-9]+\..+\Z] of an IPvFuture literal: a ['v'], one
    or more hexadecimal digits, a dot, one or more characters. *)
Definition is_ipvfuture (hostname : string) : bool :=
  match hostname with
  | String "v" rest =>
      match Str.lstrip HEX_DIGITS rest with
      | String "." (String _ _) =>
          negb (String.eqb (Str.lstrip HEX_DIGITS rest) rest)
      | _ => false
      end
  | _ => false
  end.

Definition check_bracketed_host (hostname : string) : result unit :=
  if Str.startswith hostname "v"
  then if is_ipvfuture hostname then Ok tt
       else Raise (ValueError "IPvFuture address is invalid")
  else match IPv4Address hostname with
       | Some _ => Raise (ValueError "An IPv4 address cannot be in brackets")
       | None =>
           if IPv6Address hostname then Ok tt
           else Raise (ValueError
                         (repr hostname
                          ++ " does not appear to be an IPv4 or IPv6 address"))
       end.

Definition check_bracketed_netloc (netloc : string) : result unit :=
  let hostname_and_port :=
    match rpartition "@" netloc with
    | Some (_, after) => after
    | None => netloc
    end in
  match Str.partition "[" hostname_and_port with
  | (before_bracket, Some bracketed) =>
      (* No data is allowed before a bracket. *)
      if Str.truthy before_bracket
      then Raise (ValueError "Invalid IPv6 URL")
      else
        let '(hostname, port) :=
          match Str.partition "]" bracketed with
          | (h, Some p) => (h, p)
          | (h, None) => (h, EmptyString)
          end in
        (* No data is allowed after the bracket but before the port
           delimiter. *)
        if Str.truthy port && negb (Str.startswith port ":")
        then Raise (ValueError "Invalid IPv6 URL")
        else check_bracketed_host hostname
  | (_, None) =>
      check_bracketed_host (fst (Str.partition ":" hostname_and_port))
  end.

Definition urlsplit (url : string) : result SplitResult :=
  let url := Str.lstrip WHATWG_C0_CONTROL_OR_SPACE url in
  let url := fold_left (fun u b => Str.remove b u)
               UNSAFE_URL_BYTES_TO_REMOVE url in
  let '(scheme, url) :=
    match Str.partition ":" url with
    | (String c _ as before, Some rest) =>
        if Str.is_alpha c && all_in scheme_chars before
        then (Str.lower before, rest)
        else (EmptyString, url)
    | _ => (EmptyString, url)
    end in
  nu <- (if Str.startswith url "//"
         then let '(netloc, rest) := splitnetloc url in
              if (Str.contains netloc "[" && negb (Str.contains netloc "]"))
                 || (Str.contains netloc "]"
                     && negb (Str.contains netloc "["))
              then Raise (ValueError "Invalid IPv6 URL")
              else
                (if Str.contains netloc "[" && Str.contains netloc "]"
                 then check_bracketed_netloc netloc
                 else Ok tt) ;;;
                Ok (netloc, rest)
         else Ok (EmptyString, url)) ;;
  let '(netloc, url) := nu in
  let '(url, fragment) :=
    match Str.partition "#" url with
    | (before, Some after) => (before, after)
    | (_, None) => (url, EmptyString)
    end in
  let '(url, query) :=
    match Str.partition "?" url with
    | (before, Some after) => (before, after)
    | (_, None) => (url, EmptyString)
    end in
  Ok {| split_scheme := scheme;
        split_netloc := netloc;
        split_path := url;
        split_query := query;
        split_fragment := fragment |}.

(** [_splitparams]: the first [';'] after the last ['/'] separates the
    parameters of the last path segment. *)
Definition splitparams (url : string) : string * string :=
  match rpartition "/" url with
  | Some (head, tail) =>
      match Str.partition ";" tail with
      | (t, Some p) => (head ++ "/" ++ t, p)
      | (_, None) => (url, EmptyString)
      end
  | None =>
      match Str.partition ";" url with
      | (u, Some p) => (u, p)
      | (_, None) => (url, EmptyString)
      end
  end.

Definition urlparse (url : string) : result ParseResult :=
  s <- urlsplit url ;;
  let '(url, params) :=
    if mem (split_scheme s) uses_params
       && Str.contains (split_path s) ";"
    then splitparams (split_path s)
    else (split_path s, EmptyString) in
  Ok {| scheme := split_scheme s;
        netloc := split_netloc s;
        path := url;
        params := params;
        query := split_query s;
        fragment := split_fragment s |}.

(** [parsed._replace(query=q)] *)
Definition replace_query (p : ParseResult) (q : string) : ParseResult :=
  {| scheme := scheme p;
     netloc := netloc p;
     path := path p;
     params := params p;
     query := q;
     fragment := fragment p |}.

Definition urlunsplit (scheme netloc url query fragment : string) : string :=
  let url :=
    if Str.truthy netloc
       || (Str.truthy scheme && mem scheme uses_netloc
           && negb (Str.startswith url "//"))
    then let url :=
           if Str.truthy url && negb (Str.startswith url "/")
           then "/" ++ url else url in
         "//" ++ netloc ++ url
    else url in
  let url := if Str.truthy scheme then scheme ++ ":" ++ url else url in
  let url := if Str.truthy query then url ++ "?" ++ query else url in
  let url := if Str.truthy fragment then url ++ "#" ++ fragment else url in
  url.

Definition urlunparse (p : ParseResult) : string :=
  let url :=
    if Str.truthy (params p) then path p ++ ";" ++ params p else path p in
  urlunsplit (scheme p) (netloc p) url (query p) (fragment p).

(** *** Percent-encoding *)

Definition hexval (c : ascii) : option N :=
  let n := N_of_ascii c in
  if Str.is_digit c then Some (n - 48)%N
  else if (65 <=? n)%N && (n <=? 70)%N then Some (n - 55)%N
  else if (97 <=? n)%N && (n <=? 102)%N then Some (n - 87)%N
  else None.

(** [unquote_to_bytes]: each ['%'] followed by two hexadecimal digits
    becomes the byte with that value; any other ['%'] stays. *)
Fixpoint unquote_to_bytes (s : string) : string :=
  match s with
  | EmptyString => EmptyString
  | String c rest =>
      if Ascii.eqb c "%"
      then match rest with
           | String h (String l rest') =>
               match hexval h, hexval l with
               | Some a, Some b =>
                   String (ascii_of_N (16 * a + b)) (unquote_to_bytes rest')
               | _, _ => String c (unquote_to_bytes rest)
               end
           | _ => String c (unquote_to_bytes rest)
           end
      else String c (unquote_to_bytes rest)
  end.

(** The replacement character U+FFFD. *)
Definition REPLACEMENT : string :=
  string_of_list_ascii [ascii_of_nat 239; ascii_of_nat 191; ascii_of_nat 189].

Definition in_range (lo hi : N) (c : ascii) : bool :=
  (lo <=? N_of_ascii c)%N && (N_of_ascii c <=? hi)%N.

(** The number of bytes a UTF-8 sequence starting with [b0] has; 0 when
    [b0] cannot start one. *)
Definition sequence_length (b0 : ascii) : nat :=
  if in_range 0 127 b0 then 1
  else if in_range 194 223 b0 then 2
  else if in_range 224 239 b0 then 3
  else if in_range 240 244 b0 then 4
  else 0.

(** The second byte a sequence starting with [b0] may have. *)
Definition second_byte (b0 b1 : ascii) : bool :=
  let n := N_of_ascii b0 in
  if (n =? 224)%N then in_range 160 191 b1
  else if (n =? 237)%N then in_range 128 159 b1
  else if (n =? 240)%N then in_range 144 191 b1
  else if (n =? 244)%N then in_range 128 143 b1
  else in_range 128 191 b1.

(** [bytes.decode('utf-8', 'replace')]: a well-formed sequence stays; a
    byte that starts none, and a sequence cut short, becomes U+FFFD. *)
Fixpoint decode_replace (s : string) : string :=
  match s with
  | EmptyString => EmptyString
  | String b0 r0 =>
      match sequence_length b0 with
      | 1 => String b0 (decode_replace r0)
      | 2 =>
          match r0 with
          | String b1 r1 =>
              if second_byte b0 b1
              then String b0 (String b1 (decode_replace r1))
              else REPLACEMENT ++ decode_replace r0
          | EmptyString => REPLACEMENT
          end
      | 3 =>
          match r0 with
          | String b1 r1 =>
              if second_byte b0 b1
              then match r1 with
                   | String b2 r2 =>
                       if Str.is_continuation b2
                       then String b0 (String b1 (String b2
                              (decode_replace r2)))
                       else REPLACEMENT ++ decode_replace r1
                   | EmptyString => REPLACEMENT
                   end
              else REPLACEMENT ++ decode_replace r0
          | EmptyString => REPLACEMENT
          end
      | 4 =>
          match r0 with
          | String b1 r1 =>
              if second_byte b0 b1
              then match r1 with
                   | String b2 r2 =>
                       if Str.is_continuation b2
                       then match r2 with
                            | String b3 r3 =>
                                if Str.is_continuation b3
                                then String b0 (String b1 (String b2
                                       (String b3 (decode_replace r3))))
                                else REPLACEMENT ++ decode_replace r2
                            | EmptyString => REPLACEMENT
                            end
                       else REPLACEMENT ++ decode_replace r1
                   | EmptyString => REPLACEMENT
                   end
              else REPLACEMENT ++ decode_replace r0
          | EmptyString => REPLACEMENT
          end
      | _ => REPLACEMENT ++ decode_replace r0
      end
  end.

(** [unquote] with its defaults (UTF-8, errors replaced): a text without
    ['%'] is returned as it is; otherwise the escapes are turned into bytes
    and the bytes decoded. *)
Definition unquote (s : string) : string :=
  if negb (Str.contains s "%") then s
  else decode_replace (unquote_to_bytes s).

Definition hexdigit (n : N) : ascii :=
  if (n <? 10)%N then ascii_of_N (48 + n) else ascii_of_N (55 + n).

Definition ALWAYS_SAFE : string :=
  "ABCDEFGHIJKLMNOPQRSTUVWXYZabcdefghijklmnopqrstuvwxyz0123456789_.-~".

(** [quote(s, safe)]: a character that is always safe or in [safe] stays,
    any other is written ['%XX']. *)
Fixpoint quote (safe s : string) : string :=
  match s with
  | EmptyString => EmptyString
  | String c s' =>
      if (N_of_ascii c <? 128)%N
         && (Str.contains ALWAYS_SAFE c || Str.contains safe c)
      then String c (quote safe s')
      else String "%"
             (String (hexdigit (N_of_ascii c / 16))
                (String (hexdigit (N_of_ascii c mod 16)) (quote safe s')))
  end.

Definition quote_plus (s : string) : string :=
  if negb (Str.contains s " ") then quote "" s
  else Str.replace " " "+" (quote " " s).

(** [urlencode] of a sequence of pairs of strings *)
Definition urlencode (query : list (string * string)) : string :=
  Str.join "&"
    (map (fun '(k, v) => quote_plus k ++ "=" ++ quote_plus v) query).

(** *** Query strings *)

(** [parse_qsl] with its defaults: fields are separated by ['&'], a field
    without ['='] or with a blank value is dropped. *)
Definition parse_qsl (qs : string) : list (string * string) :=
  let query_args := if Str.truthy qs then Str.split "&" qs else [] in
  flat_map
    (fun name_value =>
       match Str.partition "=" name_value with
       | (name, Some value) =>
           if Str.truthy value
           then [(unquote (Str.replace "+" " " name),
                  unquote (Str.replace "+" " " value))]
           else []
       | (_, None) => []
       end)
    query_args.

(** A [dict] from names to lists of values, in insertion order. *)
Definition dict : Type := list (string * list string).

Fixpoint dict_append (d : dict) (name value : string) : dict :=
  match d with
  | [] => [(name, [value])]
  | (k, vs) :: d' =>
      if String.eqb k name then (k, (vs ++ [value])%list) :: d'
      else (k, vs) :: dict_append d' name value
  end.

Definition parse_qs (qs : string) : dict :=
  fold_left (fun d '(name, value) => dict_append d name value)
    (parse_qsl qs) [].

(** Iterating a [dict] yields its keys. *)
Definition keys (d : dict) : list string := map fst d.

End urllib_parse.

(** ** [mcp/server/auth/provider.py] *)

(** Unpacking a string into two targets, [k, vs = s]: it must have exactly
    two characters. *)
Definition unpack2 (s : string) : result (string * string) :=
  match Str.iter s with
  | [a; b] => Ok (a, b)
  | [] => Raise (ValueError "not enough values to unpack (expected 2, got 0)")
  | [_] => Raise (ValueError "not enough values to unpack (expected 2, got 1)")
  | _ => Raise (ValueError "too many values to unpack (expected 2)")
  end.

(** [construct_redirect_uri(redirect_uri_base, **params)].  The keyword
    arguments arrive as pairs of a name and an optional value, in call
    order.  The comprehension iterates the dictionary that [parse_qs]
    returns, that is its keys, and unpacks each key into [k, vs]. *)
Definition construct_redirect_uri (redirect_uri_base : string)
  (params : list (string * option string)) : result string :=
  parsed_uri <- urllib_parse.urlparse redirect_uri_base ;;
  query_params <-
    for_each
      (fun key =>
         kvs <- unpack2 key ;;
         let '(k, vs) := kvs in
         Ok (map (fun v => (k, v)) (Str.iter vs)))
      (urllib_parse.keys
         (urllib_parse.parse_qs (urllib_parse.query parsed_uri))) ;;
  let query_params :=
    fold_left
      (fun query_params '(k, v) =>
         match v with
         | Some v => (query_params ++ [(k, v)])%list
         | None => query_params
         end)
      params query_params in
  let redirect_uri :=
    urllib_parse.urlunparse
      (urllib_parse.replace_query parsed_uri
         (urllib_parse.urlencode query_params)) in
  Ok redirect_uri.

(** * Specification-side definitions and sample inputs *)

(** The error of the validator's scheme rule. *)
Definition HTTPS_REQUIRED : exn := ValueError "Issuer URL must be HTTPS".

(** The endpoint as the specification derives it: the issuer with a new
    path, the issuer's path without trailing slashes followed directly by
    the suffix without leading slashes. *)
Definition derived_endpoint (issuer_url : AnyHttpUrl) (suffix : string)
  : AnyHttpUrl :=
  build (scheme issuer_url) (username issuer_url) (password issuer_url)
        (host issuer_url) (port issuer_url)
        (Str.rstrip "/" (or_empty (path issuer_url)) ++ Str.lstrip "/" suffix)
        (query issuer_url) (fragment issuer_url).

(** The parameters a call supplies: those with a value, in call order. *)
Definition supplied (params : list (string * option string))
  : list (string * string) :=
  flat_map (fun '(k, v) => match v with
                           | Some v => [(k, v)]
                           | None => []
                           end) params.

(** Sample issuers.  [AnyHttpUrl("https://auth.example.com")] as pydantic
    presents it: the default port of the scheme and the root path filled
    in. *)
Definition https_auth_example_com : AnyHttpUrl :=
  {| scheme := "https"; username := None; password := None;
     host := Some "auth.example.com"; port := Some 443%Z; path := Some "/";
     query := None; fragment := None |}.

Definition http_example_com : AnyHttpUrl :=
  {| scheme := "http"; username := None; password := None;
     host := Some "example.com"; port := Some 80%Z; path := Some "/";
     query := None; fragment := None |}.

Definition http_loopback : AnyHttpUrl :=
  {| scheme := "http"; username := None; password := None;
     host := Some "127.0.0.1"; port := Some 8000%Z; path := Some "/";
     query := None; fragment := None |}.

Definition https_with_query : AnyHttpUrl :=
  {| scheme := "https"; username := None; password := None;
     host := Some "auth.example.com"; port := Some 443%Z; path := Some "/";
     query := Some "tenant=1"; fragment := None |}.

Definition disabled_registration : ClientRegistrationOptions :=
  {| registration_enabled := false |}.
Definition enabled_registration : ClientRegistrationOptions :=
  {| registration_enabled := true |}.
Definition disabled_revocation : RevocationOptions :=
  {| revocation_enabled := false |}.
Definition enabled_revocation : RevocationOptions :=
  {| revocation_enabled := true |}.

(** The other two errors of the validator. *)
Definition FRAGMENT_FORBIDDEN : exn :=
  ValueError "Issuer URL must not have a fragment".
Definition QUERY_FORBIDDEN : exn :=
  ValueError "Issuer URL must not have a query string".

(** What the scheme rule lets through: [https], or a host that is
    [localhost] or begins with [127.0.0.1]. *)
Definition scheme_rule_ok (url : AnyHttpUrl) : Prop :=
  scheme url = "https"
  \/ host url = Some "localhost"
  \/ exists rest, host url = Some ("127.0.0.1" ++ rest).

(** A component that is missing or empty. *)
Definition blank (x : option string) : Prop :=
  x = None \/ x = Some EmptyString.

(** A text of [n] slashes, and a text made of slashes only. *)
Definition slashes (n : nat) : string :=
  string_of_list_ascii (repeat "/"%char n).

Definition only_slashes (s : string) : Prop :=
  exists n, s = slashes n.

(** The path of a URL ends with the given route path. *)
Definition ends_with_path (u : AnyHttpUrl) (route : string) : Prop :=
  exists t, path u = Some (t ++ route).

(** [x or d] for an optional options object. *)
Definition or_default {A : Type} (x : option A) (d : A) : A :=
  match x with
  | Some o => o
  | None => d
  end.

(** A name of two characters taken apart into its characters. *)
Definition name_halves (key : string) : string * string :=
  (nth 0 (Str.iter key) EmptyString, nth 1 (Str.iter key) EmptyString).

(** A pair whose value is not the empty string. *)
Definition has_value (kv : string * string) : bool :=
  Str.truthy (snd kv).

(** A supplied parameter list with every value present. *)
Definition with_values (l : list (string * string))
  : list (string * option string) :=
  map (fun '(k, v) => (k, Some v)) l.

(** What [quote_plus] writes for one character. *)
Definition quote_plus_char (c : ascii) : string :=
  if Ascii.eqb c " " then "+"
  else if (N_of_ascii c <? 128)%N
          && Str.contains urllib_parse.ALWAYS_SAFE c
       then String c EmptyString
       else String "%"
              (String (urllib_parse.hexdigit (N_of_ascii c / 16))
                 (String (urllib_parse.hexdigit (N_of_ascii c mod 16))
                    EmptyString)).

Definition https_auth_example_com_tenant : AnyHttpUrl :=
  {| scheme := "https"; username := None; password := None;
     host := Some "auth.example.com"; port := Some 443%Z;
     path := Some "/tenant/"; query := None; fragment := None |}.

(** The names the helper's comprehension iterates: the keys of the parsed
    query of the base. *)
Definition existing_names (parsed_uri : urllib_parse.ParseResult)
  : list string :=
  urllib_parse.keys (urllib_parse.parse_qs (urllib_parse.query parsed_uri)).

(** What [quote_plus] writes for a text, character by character. *)
Fixpoint quote_plus_chars (s : string) : string :=
  match s with
  | EmptyString => EmptyString
  | String c s' => quote_plus_char c ++ quote_plus_chars s'
  end.

(** One field of an encoded query. *)
Definition query_field (kv : string * string) : string :=
  urllib_parse.quote_plus (fst kv) ++ "=" ++ urllib_parse.quote_plus (snd kv).

(** The text of a parsed URL up to its query, the text of a query and the
    text of its fragment, as [urlunparse] writes them. *)
Definition text_before_query (p : urllib_parse.ParseResult) : string :=
  urllib_parse.urlunparse
    {| urllib_parse.scheme := urllib_parse.scheme p;
       urllib_parse.netloc := urllib_parse.netloc p;
       urllib_parse.path := urllib_parse.path p;
       urllib_parse.params := urllib_parse.params p;
       urllib_parse.query := EmptyString;
       urllib_parse.fragment := EmptyString |}.

Definition query_text (q : string) : string :=
  if Str.truthy q then "?" ++ q else EmptyString.

Definition fragment_text (p : urllib_parse.ParseResult) : string :=
  if Str.truthy (urllib_parse.fragment p)
  then "#" ++ urllib_parse.fragment p else EmptyString.

(** A text that is well-formed UTF-8, as the encoding of a Python [str]
    is: decoding it replaces nothing. *)
Definition well_formed (s : string) : Prop :=
  urllib_parse.decode_replace s = s.

Definition well_formed_pair (kv : string * string) : Prop :=
  well_formed (fst kv) /\ well_formed (snd kv).

(** The query the specification describes for a list of pairs: each pair
    written name, ['='], value, both percent-encoded character by
    character, the pairs joined by ['&']. *)
Definition encoded_query (l : list (string * string)) : string :=
  Str.join "&"
    (map (fun kv => quote_plus_chars (fst kv) ++ "="
                    ++ quote_plus_chars (snd kv)) l).

(** The letter e with an acute accent, U+00E9: the bytes C3 A9. *)
Definition e_acute : string :=
  string_of_list_ascii [ascii_of_nat 195; ascii_of_nat 169].

(** Every character a string yields is a first byte followed by
    continuation bytes, and iterating it yields it alone. *)
Definition one_character (h : string) : Prop :=
  exists c t, h = String c t
              /\ forallb Str.is_continuation (list_ascii_of_string t) = true.

(** * Properties *)

(** ** Python string methods *)

(** [s.startswith(p)] holds exactly when [s] is [p] followed by some text. *)
Lemma startswith_iff (s p : string) :
  Str.startswith s p = true <-> exists rest, s = p ++ rest.
Proof.
  unfold Str.startswith. revert s.
  induction p as [|a p IH]; intros s.
  - split; [intros _; now exists s | now destruct s].
  - destruct s as [|b s]; simpl.
    + split; [discriminate | intros [rest H]; discriminate].
    + destruct (ascii_dec a b) as [->|Hab].
      * rewrite IH. split; intros [rest H]; exists rest.
        -- now rewrite H.
        -- now injection H.
      * split; [discriminate|].
        intros [rest H]. injection H as H1 _. congruence.
Qed.

Lemma truthy_opt_iff (x : option string) :
  truthy_opt x = true <-> exists s, x = Some s /\ s <> EmptyString.
Proof.
  destruct x as [[|a s]|]; simpl; split; try discriminate.
  - intros [s [H Hs]]. injection H as <-. congruence.
  - intros _. eexists; split; [reflexivity | discriminate].
  - reflexivity.
  - intros [s [H _]]. discriminate.
Qed.

(** [rstrip] removes a run of the given character from the end and leaves
    a text that does not end with it. *)
Lemma rstrip_spec (c : ascii) (s : string) :
  exists n,
    s = Str.rstrip (String c EmptyString) s
        ++ string_of_list_ascii (repeat c n)
    /\ forall t, Str.rstrip (String c EmptyString) s <> t ++ String c EmptyString.
Proof.
  induction s as [|a s [n [Hs Hend]]]; simpl.
  - exists 0. split; [reflexivity|].
    intros [|b t]; discriminate.
  - destruct (Str.rstrip (String c EmptyString) s) as [|b r] eqn:E.
    + simpl. rewrite orb_false_r.
      destruct (Ascii.eqb c a) eqn:Eca.
      * apply Ascii.eqb_eq in Eca. subst a.
        exists (S n). split.
        -- simpl. simpl in Hs. now rewrite <- Hs.
        -- intros [|b t]; discriminate.
      * exists n. split.
        -- simpl. simpl in Hs. now rewrite <- Hs.
        -- intros [|b [|b' t]]; simpl; intros H; try discriminate.
           injection H as ->. now rewrite Ascii.eqb_refl in Eca.
    + exists n. split.
      * simpl. simpl in Hs. now rewrite <- Hs.
      * intros [|b' t]; simpl; intros H; [discriminate|].
        injection H as _ H. now apply (Hend t).
Qed.

(** [lstrip] removes a run of the given character from the start and
    leaves a text that does not start with it. *)
Lemma lstrip_spec (c : ascii) (s : string) :
  exists n,
    s = string_of_list_ascii (repeat c n)
        ++ Str.lstrip (String c EmptyString) s
    /\ forall t, Str.lstrip (String c EmptyString) s <> String c t.
Proof.
  induction s as [|a s [n [Hs Hstart]]]; simpl.
  - exists 0. split; [reflexivity | discriminate].
  - rewrite orb_false_r. destruct (Ascii.eqb c a) eqn:Eca.
    + apply Ascii.eqb_eq in Eca. subst a.
      exists (S n). split; [simpl; now rewrite <- Hs | exact Hstart].
    + exists 0. split; [reflexivity|].
      intros t H. injection H as -> _. now rewrite Ascii.eqb_refl in Eca.
Qed.

Lemma string_app_assoc (a b c : string) : (a ++ b) ++ c = a ++ b ++ c.
Proof.
  induction a as [|x a IH]; simpl; [reflexivity | now rewrite IH].
Qed.

Lemma string_app_empty_r (a : string) : a ++ EmptyString = a.
Proof.
  induction a as [|x a IH]; simpl; [reflexivity | now rewrite IH].
Qed.

(** ** The issuer URL validator *)

(** C3 -- scheme rule of the validator.  An issuer whose scheme is not
    [https] and whose host is neither [localhost] nor a text beginning with
    [127.0.0.1] is refused with the HTTPS error; an issuer whose scheme is
    [https], or whose host is [localhost] or begins with [127.0.0.1], is
    never refused with that error. *)
Theorem validate_issuer_url_scheme_rule (url : AnyHttpUrl) :
  (scheme url <> "https" ->
   host url <> Some "localhost" ->
   (forall rest, host url <> Some ("127.0.0.1" ++ rest)) ->
   validate_issuer_url url = Raise HTTPS_REQUIRED)
  /\
  (scheme url = "https"
   \/ host url = Some "localhost"
   \/ (exists rest, host url = Some ("127.0.0.1" ++ rest)) ->
   validate_issuer_url url <> Raise HTTPS_REQUIRED).
Proof.
  unfold validate_issuer_url, HTTPS_REQUIRED. split.
  - intros Hs Hl Hp.
    apply String.eqb_neq in Hs. rewrite Hs. simpl.
    destruct (host url) as [h|]; [|reflexivity].
    assert (El : String.eqb h "localhost" = false).
    { apply String.eqb_neq. congruence. }
    assert (Ep : Str.startswith h "127.0.0.1" = false).
    { destruct (Str.startswith h "127.0.0.1") eqn:E; [|reflexivity].
      apply startswith_iff in E. destruct E as [rest ->].
      now destruct (Hp rest). }
    now rewrite El, Ep.
  - intros H.
    assert (E : negb (String.eqb (scheme url) "https")
                && negb (match host url with
                         | Some h => String.eqb h "localhost"
                         | None => false
                         end)
                && negb (match host url with
                         | Some h => Str.startswith h "127.0.0.1"
                         | None => false
                         end) = false).
    { destruct H as [H | [H | [rest H]]].
      - apply String.eqb_eq in H. now rewrite H.
      - rewrite H. simpl.
        now destruct (String.eqb (scheme url) "https").
      - rewrite H.
        assert (Ep : Str.startswith ("127.0.0.1" ++ rest) "127.0.0.1" = true)
          by (apply startswith_iff; now exists rest).
        rewrite Ep. simpl. apply andb_false_r. }
    rewrite E.
    destruct (truthy_opt (fragment url)); [discriminate|].
    destruct (truthy_opt (query url)); discriminate.
Qed.

Lemma validate_issuer_url_scheme_rule_witness :
  validate_issuer_url http_example_com = Raise HTTPS_REQUIRED
  /\ validate_issuer_url http_loopback <> Raise HTTPS_REQUIRED.
Proof.
  split.
  - apply (proj1 (validate_issuer_url_scheme_rule http_example_com)).
    + discriminate.
    + discriminate.
    + intros rest. discriminate.
  - apply (proj2 (validate_issuer_url_scheme_rule http_loopback)).
    right. right. exists EmptyString. reflexivity.
Defined.

(** C4 -- an issuer with a non-empty fragment or a non-empty query is
    refused, whatever its scheme and host. *)
Theorem validate_issuer_url_rejects_fragment_and_query (url : AnyHttpUrl) :
  (exists f, fragment url = Some f /\ f <> EmptyString)
  \/ (exists q, query url = Some q /\ q <> EmptyString) ->
  raises (validate_issuer_url url).
Proof.
  intros H. unfold raises, validate_issuer_url.
  destruct (negb (String.eqb (scheme url) "https") && _ && _);
    [eexists; reflexivity|].
  destruct (truthy_opt (fragment url)) eqn:Ef; [eexists; reflexivity|].
  destruct (truthy_opt (query url)) eqn:Eq; [eexists; reflexivity|].
  destruct H as [H | H]; apply truthy_opt_iff in H; congruence.
Qed.

Lemma validate_issuer_url_rejects_fragment_and_query_witness :
  raises (validate_issuer_url https_with_query).
Proof.
  apply validate_issuer_url_rejects_fragment_and_query.
  right. exists "tenant=1". split; [reflexivity | discriminate].
Defined.

(** ** The metadata builder *)

(** C2 -- every endpoint the metadata advertises is built from the issuer's
    own scheme, user information, host, port, query and fragment, and from
    a path made of two parts with nothing in between: the issuer's path
    without its trailing slashes (the issuer's path is that part followed
    by slashes only, and that part does not end with a slash), and the
    route path without its leading slash ([authorize], [token], [register],
    [revoke]).  The registration and revocation endpoints are there exactly
    when the feature is enabled.  The built URL keeps the issuer's scheme,
    host, port, query and fragment, and its text is the issuer's text with
    the path replaced by that join, behind the slash with which the URL
    builder starts every path. *)
Theorem build_metadata_endpoint_derivation
  (issuer_url : AnyHttpUrl) (service_documentation_url : option AnyHttpUrl)
  (reg : ClientRegistrationOptions) (rev : RevocationOptions) :
  let m := build_metadata issuer_url service_documentation_url reg rev in
  exists base n before after,
    or_empty (path issuer_url) = base ++ slashes n
    /\ (forall t, base <> t ++ "/")
    /\ unicode_string issuer_url
       = before ++ or_empty (path issuer_url) ++ after
    /\ AUTHORIZATION_PATH = "/" ++ "authorize"
    /\ TOKEN_PATH = "/" ++ "token"
    /\ REGISTRATION_PATH = "/" ++ "register"
    /\ REVOCATION_PATH = "/" ++ "revoke"
    /\ let endpoint := fun name =>
         build (scheme issuer_url) (username issuer_url)
               (password issuer_url) (host issuer_url) (port issuer_url)
               (base ++ name) (query issuer_url) (fragment issuer_url) in
       authorization_endpoint m = endpoint "authorize"
       /\ token_endpoint m = endpoint "token"
       /\ registration_endpoint m =
            (if registration_enabled reg
             then Some (endpoint "register") else None)
       /\ revocation_endpoint m =
            (if revocation_enabled rev
             then Some (endpoint "revoke") else None)
       /\ forall name,
            scheme (endpoint name) = scheme issuer_url
            /\ host (endpoint name) = host issuer_url
            /\ port (endpoint name) = port issuer_url
            /\ query (endpoint name) = query issuer_url
            /\ fragment (endpoint name) = fragment issuer_url
            /\ path (endpoint name) = Some ("/" ++ base ++ name)
            /\ unicode_string (endpoint name)
               = before ++ ("/" ++ base ++ name) ++ after.
Proof.
  cbv zeta.
  destruct (rstrip_spec "/" (or_empty (path issuer_url))) as [n [Hpath Hend]].
  exists (Str.rstrip "/" (or_empty (path issuer_url))), n.
  exists (scheme issuer_url ++ "://"
          ++ match username issuer_url, password issuer_url with
             | Some u, Some p => u ++ ":" ++ p ++ "@"
             | Some u, None => u ++ "@"
             | None, Some p => ":" ++ p ++ "@"
             | None, None => EmptyString
             end
          ++ or_empty (host issuer_url)
          ++ match port issuer_url with
             | Some p =>
                 match default_port (scheme issuer_url) with
                 | Some d =>
                     if (p =? d)%Z then EmptyString else ":" ++ decimal p
                 | None => ":" ++ decimal p
                 end
             | None => EmptyString
             end).
  exists (match query issuer_url with
          | Some q => "?" ++ q
          | None => EmptyString
          end
          ++ match fragment issuer_url with
             | Some f => "#" ++ f
             | None => EmptyString
             end).
  split; [exact Hpath|].
  split; [exact Hend|].
  split; [unfold unicode_string; now rewrite !string_app_assoc|].
  do 4 (split; [reflexivity|]).
  unfold build_metadata.
  repeat split;
    try (destruct (registration_enabled reg), (revocation_enabled rev);
         reflexivity).
  unfold unicode_string, build. cbn [scheme username password host port
                                     path query fragment or_empty].
  now rewrite !string_app_assoc.
Qed.

(** C5 -- for the issuer [https://auth.example.com] with registration and
    revocation disabled, the metadata has no registration endpoint and no
    revocation endpoint, neither appears among the fields of the document,
    and the token endpoint reads [https://auth.example.com/token]. *)
Theorem build_metadata_auth_example_com :
  let m := build_metadata https_auth_example_com None
             {| registration_enabled := false |}
             {| revocation_enabled := false |} in
  registration_endpoint m = None
  /\ revocation_endpoint m = None
  /\ ~ In "registration_endpoint" (present_fields m)
  /\ ~ In "revocation_endpoint" (present_fields m)
  /\ unicode_string (token_endpoint m) = "https://auth.example.com/token".
Proof.
  repeat split; try reflexivity.
  - vm_compute. intros H.
    repeat (destruct H as [H | H]; [discriminate|]). exact H.
  - vm_compute. intros H.
    repeat (destruct H as [H | H]; [discriminate|]). exact H.
Qed.

(** ** The route table assembler *)

Section RouteTableProperties.

Variable OAuthServerProvider : Type.
Variable default_client_registration_options : ClientRegistrationOptions.
Variable default_revocation_options : RevocationOptions.

Let routes_for := @create_auth_routes OAuthServerProvider
  default_client_registration_options default_revocation_options.

(** C6 -- switching client registration on adds the one route
    [POST /register] to the route table and the one field
    [registration_endpoint] to the metadata; switching revocation on adds
    the one route [POST /revoke] and the two fields [revocation_endpoint]
    and [revocation_endpoint_auth_methods_supported].  Everything else the
    two tables bind, and every other field, stays as it is. *)
Theorem enabling_adds_one_route_and_its_fields
  (provider : OAuthServerProvider) (issuer_url : AnyHttpUrl)
  (service_documentation_url : option AnyHttpUrl)
  (reg_on reg_off : ClientRegistrationOptions)
  (rev_on rev_off : RevocationOptions) :
  validate_issuer_url issuer_url = Ok tt ->
  registration_enabled reg_on = true ->
  registration_enabled reg_off = false ->
  revocation_enabled rev_on = true ->
  revocation_enabled rev_off = false ->
  (forall rev : option RevocationOptions,
      exists routes_off routes_on before after,
        routes_for provider issuer_url service_documentation_url
          (Some reg_off) rev = Ok routes_off
        /\ routes_for provider issuer_url service_documentation_url
             (Some reg_on) rev = Ok routes_on
        /\ map binding routes_off = (before ++ after)%list
        /\ map binding routes_on
           = (before ++ ("/register", ["POST"]) :: after)%list)
  /\
  (forall rev : RevocationOptions,
      let off := build_metadata issuer_url service_documentation_url
                   reg_off rev in
      let on := build_metadata issuer_url service_documentation_url
                  reg_on rev in
      registration_endpoint off = None
      /\ on = set_registration_endpoint off
                (derived_endpoint issuer_url "/register")
      /\ exists before after,
           present_fields off = (before ++ after)%list
           /\ present_fields on
              = (before ++ "registration_endpoint" :: after)%list)
  /\
  (forall reg : option ClientRegistrationOptions,
      exists routes_off routes_on,
        routes_for provider issuer_url service_documentation_url
          reg (Some rev_off) = Ok routes_off
        /\ routes_for provider issuer_url service_documentation_url
             reg (Some rev_on) = Ok routes_on
        /\ map binding routes_on
           = (map binding routes_off ++ [("/revoke", ["POST"])])%list)
  /\
  (forall reg : ClientRegistrationOptions,
      let off := build_metadata issuer_url service_documentation_url
                   reg rev_off in
      let on := build_metadata issuer_url service_documentation_url
                  reg rev_on in
      revocation_endpoint off = None
      /\ revocation_endpoint_auth_methods_supported off = None
      /\ on = set_revocation_endpoint_auth_methods_supported
                (set_revocation_endpoint off
                   (derived_endpoint issuer_url "/revoke"))
                ["client_secret_post"]
      /\ exists before after,
           present_fields off = (before ++ after)%list
           /\ present_fields on
              = (before ++ "revocation_endpoint"
                   :: "revocation_endpoint_auth_methods_supported"
                   :: after)%list).
Proof.
  intros Hvalid Hreg_on Hreg_off Hrev_on Hrev_off.
  destruct reg_on as [reg_on_flag], reg_off as [reg_off_flag],
           rev_on as [rev_on_flag], rev_off as [rev_off_flag].
  simpl in Hreg_on, Hreg_off, Hrev_on, Hrev_off. subst.
  unfold routes_for, create_auth_routes. rewrite Hvalid. simpl bind.
  repeat apply conj.
  - intros rev.
    set (rev_flag := revocation_enabled
                       match rev with
                       | Some o => o
                       | None => default_revocation_options
                       end).
    do 2 eexists.
    exists [("/.well-known/oauth-authorization-server", ["GET"]);
            ("/authorize", ["GET"; "POST"]); ("/token", ["POST"])].
    exists (if rev_flag then [("/revoke", ["POST"])] else []).
    cbn [registration_enabled].
    repeat split; destruct rev_flag; reflexivity.
  - intros [rev_flag]. cbv zeta.
    unfold build_metadata. cbn [registration_enabled revocation_enabled].
    repeat split; try (destruct rev_flag; reflexivity).
    exists ["issuer"; "authorization_endpoint"; "token_endpoint"].
    exists (skipn 3 (present_fields
                      (build_metadata issuer_url service_documentation_url
                         {| registration_enabled := false |}
                         {| revocation_enabled := rev_flag |}))).
    split; destruct rev_flag, service_documentation_url; reflexivity.
  - intros reg.
    set (reg_flag := registration_enabled
                       match reg with
                       | Some o => o
                       | None => default_client_registration_options
                       end).
    do 2 eexists. cbn [revocation_enabled].
    repeat split. destruct reg_flag; reflexivity.
  - intros [reg_flag]. cbv zeta.
    unfold build_metadata. cbn [registration_enabled revocation_enabled].
    repeat split; try (destruct reg_flag; reflexivity).
    exists (removelast
              (present_fields
                 (build_metadata issuer_url service_documentation_url
                    {| registration_enabled := reg_flag |}
                    {| revocation_enabled := false |}))).
    exists ["code_challenge_methods_supported"].
    split; destruct reg_flag, service_documentation_url; reflexivity.
Qed.

(** C7 -- the issuer is validated before anything else: when it is refused
    the call raises the validator's error and yields no route table; when
    it is accepted the table binds [GET] at the well-known metadata path,
    [GET] and [POST] at [/authorize], and [POST] at [/token]. *)
Theorem create_auth_routes_validates_first
  (provider : OAuthServerProvider) (issuer_url : AnyHttpUrl)
  (service_documentation_url : option AnyHttpUrl)
  (reg : option ClientRegistrationOptions)
  (rev : option RevocationOptions) :
  (forall e, validate_issuer_url issuer_url = Raise e ->
             routes_for provider issuer_url service_documentation_url
               reg rev = Raise e)
  /\
  (validate_issuer_url issuer_url = Ok tt ->
   exists routes,
     routes_for provider issuer_url service_documentation_url reg rev
       = Ok routes
     /\ binds routes "/.well-known/oauth-authorization-server" "GET"
     /\ binds routes "/authorize" "GET"
     /\ binds routes "/authorize" "POST"
     /\ binds routes "/token" "POST").
Proof.
  unfold routes_for, create_auth_routes. split.
  - intros e He. now rewrite He.
  - intros Hvalid. rewrite Hvalid. simpl bind.
    eexists. split; [reflexivity|].
    set (reg_flag := registration_enabled _).
    set (rev_flag := revocation_enabled _).
    set (metadata := build_metadata _ _ _ _).
    unfold binds.
    repeat apply conj.
    + exists {| route_path := "/.well-known/oauth-authorization-server";
                endpoint := MetadataHandler metadata;
                methods := ["GET"] |}.
      destruct reg_flag, rev_flag; simpl; intuition auto.
    + exists {| route_path := AUTHORIZATION_PATH;
                endpoint := AuthorizationHandler provider;
                methods := ["GET"; "POST"] |}.
      destruct reg_flag, rev_flag; simpl; intuition auto.
    + exists {| route_path := AUTHORIZATION_PATH;
                endpoint := AuthorizationHandler provider;
                methods := ["GET"; "POST"] |}.
      destruct reg_flag, rev_flag; simpl; intuition auto.
    + exists {| route_path := TOKEN_PATH;
                endpoint := TokenHandler provider
                              {| authenticator_provider := provider |};
                methods := ["POST"] |}.
      destruct reg_flag, rev_flag; simpl; intuition auto.
Qed.

End RouteTableProperties.

Lemma enabling_adds_one_route_and_its_fields_witness :
  validate_issuer_url https_auth_example_com = Ok tt
  /\ exists routes_off routes_on,
       create_auth_routes disabled_registration disabled_revocation
         tt https_auth_example_com None (Some disabled_registration) None
         = Ok routes_off
       /\ create_auth_routes disabled_registration disabled_revocation
            tt https_auth_example_com None (Some enabled_registration) None
            = Ok routes_on
       /\ length routes_on = S (length routes_off).
Proof.
  split; [reflexivity|].
  destruct (proj1 (enabling_adds_one_route_and_its_fields unit
                     disabled_registration disabled_revocation
                     tt https_auth_example_com None
                     enabled_registration disabled_registration
                     enabled_revocation disabled_revocation
                     eq_refl eq_refl eq_refl eq_refl eq_refl) None)
    as (routes_off & routes_on & before & after & Hoff & Hon & Eoff & Eon).
  exists routes_off, routes_on. repeat split; try assumption.
  rewrite <- (length_map binding routes_on), Eon.
  rewrite <- (length_map binding routes_off), Eoff.
  rewrite !length_app. simpl. lia.
Defined.

Lemma create_auth_routes_validates_first_witness :
  create_auth_routes disabled_registration disabled_revocation
    tt http_example_com None None None = Raise HTTPS_REQUIRED
  /\ exists routes,
       create_auth_routes disabled_registration disabled_revocation
         tt https_auth_example_com None None None = Ok routes
       /\ binds routes "/.well-known/oauth-authorization-server" "GET"
       /\ binds routes "/authorize" "GET"
       /\ binds routes "/authorize" "POST"
       /\ binds routes "/token" "POST".
Proof.
  split.
  - apply (proj1 (create_auth_routes_validates_first unit
                    disabled_registration disabled_revocation
                    tt http_example_com None None None)).
    reflexivity.
  - apply (proj2 (create_auth_routes_validates_first unit
                    disabled_registration disabled_revocation
                    tt https_auth_example_com None None None)).
    reflexivity.
Defined.

(** ** The redirect-URI helper *)

Lemma append_params (params : list (string * option string)) :
  forall query_params,
    fold_left
      (fun query_params '(k, v) =>
         match v with
         | Some v => (query_params ++ [(k, v)])%list
         | None => query_params
         end)
      params query_params
    = (query_params ++ supplied params)%list.
Proof.
  induction params as [|[k [v|]] params IH]; intros acc; simpl.
  - now rewrite app_nil_r.
  - rewrite IH. now rewrite <- app_assoc.
  - apply IH.
Qed.

(** C1 -- the example of the specification.  The base
    [https://cb.example.com/cb?foo=1] has the query [foo=1]; the helper
    iterates the names of the parsed query and unpacks the name [foo] into
    two targets, which raises, where the specification expects
    [https://cb.example.com/cb?foo=1&code=abc]. *)
Theorem construct_redirect_uri_existing_query_raises :
  urllib_parse.urlparse "https://cb.example.com/cb?foo=1"
  = Ok {| urllib_parse.scheme := "https";
          urllib_parse.netloc := "cb.example.com";
          urllib_parse.path := "/cb";
          urllib_parse.params := "";
          urllib_parse.query := "foo=1";
          urllib_parse.fragment := "" |}
  /\ urllib_parse.parse_qs "foo=1" = [("foo", ["1"])]
  /\ construct_redirect_uri "https://cb.example.com/cb?foo=1"
       [("code", Some "abc"); ("state", None)]
     = Raise (ValueError "too many values to unpack (expected 2)").
Proof.
  repeat split; reflexivity.
Qed.

(** A name of exactly two characters does unpack: its first character is
    taken for the name and its second for the value. *)
Example construct_redirect_uri_two_character_name :
  construct_redirect_uri "https://cb.example.com/cb?ab=1"
    [("code", Some "abc"); ("state", None)]
  = Ok "https://cb.example.com/cb?a=b&code=abc".
Proof. reflexivity. Qed.

(** * Further properties of the code *)

(** ** The validator, case by case *)

Lemma blank_iff (x : option string) : blank x <-> truthy_opt x = false.
Proof.
  unfold blank. destruct x as [[|a s]|]; simpl; split; intros H;
    try reflexivity; try discriminate; auto.
  destruct H; discriminate.
Qed.

(** The four ways through the validator, in the order of its tests. *)
Lemma validate_issuer_url_cases (url : AnyHttpUrl) :
  (~ scheme_rule_ok url /\ validate_issuer_url url = Raise HTTPS_REQUIRED)
  \/ (scheme_rule_ok url /\ ~ blank (fragment url)
      /\ validate_issuer_url url = Raise FRAGMENT_FORBIDDEN)
  \/ (scheme_rule_ok url /\ blank (fragment url) /\ ~ blank (query url)
      /\ validate_issuer_url url = Raise QUERY_FORBIDDEN)
  \/ (scheme_rule_ok url /\ blank (fragment url) /\ blank (query url)
      /\ validate_issuer_url url = Ok tt).
Proof.
  assert (Hrule : scheme_rule_ok url \/ ~ scheme_rule_ok url).
  { unfold scheme_rule_ok.
    destruct (string_dec (scheme url) "https") as [Hs|Hs]; [now left; left|].
    destruct (host url) as [h|].
    - destruct (string_dec h "localhost") as [->|Hl];
        [now left; right; left|].
      destruct (Str.startswith h "127.0.0.1") eqn:Ep.
      + apply startswith_iff in Ep. destruct Ep as [rest ->].
        left. right. right. now exists rest.
      + right. intros [H | [H | [rest H]]]; try congruence.
        assert (Eh : h = "127.0.0.1" ++ rest) by congruence.
        rewrite Eh in Ep.
        assert (Str.startswith ("127.0.0.1" ++ rest) "127.0.0.1" = true)
          by (apply startswith_iff; now exists rest).
        congruence.
    - right. intros [H | [H | [rest H]]]; congruence. }
  assert (Hguard :
    negb (String.eqb (scheme url) "https")
    && negb (match host url with
             | Some h => String.eqb h "localhost"
             | None => false
             end)
    && negb (match host url with
             | Some h => Str.startswith h "127.0.0.1"
             | None => false
             end) = true <-> ~ scheme_rule_ok url).
  { unfold scheme_rule_ok. split.
    - intros H. apply andb_prop in H. destruct H as [H H3].
      apply andb_prop in H. destruct H as [H1 H2].
      apply negb_true_iff in H1, H2, H3. apply String.eqb_neq in H1.
      intros [E | [E | [rest E]]]; [congruence | |]; rewrite E in *.
      + now rewrite String.eqb_refl in H2.
      + assert (Str.startswith ("127.0.0.1" ++ rest) "127.0.0.1" = true)
          by (apply startswith_iff; now exists rest).
        congruence.
    - intros H.
      destruct (String.eqb (scheme url) "https") eqn:E1.
      { apply String.eqb_eq in E1. destruct H. now left. }
      destruct (host url) as [h|]; [|reflexivity]. simpl.
      destruct (String.eqb h "localhost") eqn:E2.
      { apply String.eqb_eq in E2. subst h. destruct H. now right; left. }
      destruct (Str.startswith h "127.0.0.1") eqn:E3; [|reflexivity].
      apply startswith_iff in E3. destruct E3 as [rest ->].
      destruct H. right. right. now exists rest. }
  unfold validate_issuer_url, HTTPS_REQUIRED, FRAGMENT_FORBIDDEN,
    QUERY_FORBIDDEN.
  destruct (negb (String.eqb (scheme url) "https") && _ && _) eqn:G.
  - left. split; [now apply Hguard | reflexivity].
  - right.
    assert (Hok : scheme_rule_ok url).
    { destruct Hrule as [H|H]; [exact H|]. apply Hguard in H. congruence. }
    destruct (truthy_opt (fragment url)) eqn:Ef.
    + left. repeat split; try assumption.
      intros B. apply blank_iff in B. congruence.
    + right. apply blank_iff in Ef.
      destruct (truthy_opt (query url)) eqn:Eq.
      * left. repeat split; try assumption.
        intros B. apply blank_iff in B. congruence.
      * right. apply blank_iff in Eq. now repeat split.
Qed.

(** X1 -- the validator accepts an issuer exactly when the scheme rule lets
    it through and it has neither a fragment nor a query; a fragment or a
    query that is present but empty is accepted like a missing one. *)
Theorem validate_issuer_url_accepts_iff (url : AnyHttpUrl) :
  validate_issuer_url url = Ok tt
  <-> scheme_rule_ok url /\ blank (fragment url) /\ blank (query url).
Proof.
  destruct (validate_issuer_url_cases url)
    as [[H1 E] | [(H1 & H2 & E) | [(H1 & H2 & H3 & E) | (H1 & H2 & H3 & E)]]];
    rewrite E; split; try discriminate; try tauto.
Qed.

(** X2 -- the validator raises one of three errors, chosen by the first
    rule the issuer breaks: the HTTPS error exactly when the scheme rule
    refuses it, whatever its fragment and query; the fragment error exactly
    when the scheme rule passes and the fragment is not blank, whatever the
    query; the query error exactly when only the query is not blank. *)
Theorem validate_issuer_url_error_precedence (url : AnyHttpUrl) :
  (validate_issuer_url url = Raise HTTPS_REQUIRED <-> ~ scheme_rule_ok url)
  /\ (validate_issuer_url url = Raise FRAGMENT_FORBIDDEN
      <-> scheme_rule_ok url /\ ~ blank (fragment url))
  /\ (validate_issuer_url url = Raise QUERY_FORBIDDEN
      <-> scheme_rule_ok url /\ blank (fragment url) /\ ~ blank (query url))
  /\ (forall e, validate_issuer_url url = Raise e ->
        e = HTTPS_REQUIRED \/ e = FRAGMENT_FORBIDDEN \/ e = QUERY_FORBIDDEN).
Proof.
  destruct (validate_issuer_url_cases url)
    as [[H1 E] | [(H1 & H2 & E) | [(H1 & H2 & H3 & E) | (H1 & H2 & H3 & E)]]];
    rewrite E; repeat split; intros; try discriminate; try tauto;
    try match goal with
        | H : Raise _ = Raise _ |- _ => injection H as <-; tauto
        end.
Qed.

(** ** Validation and path rewriting *)

(** The validator reads the scheme, the host, the fragment and the query
    of a URL and nothing else. *)
Lemma validate_issuer_url_reads (u v : AnyHttpUrl) :
  scheme u = scheme v -> host u = host v ->
  fragment u = fragment v -> query u = query v ->
  validate_issuer_url u = validate_issuer_url v.
Proof.
  intros Hs Hh Hf Hq. unfold validate_issuer_url.
  now rewrite Hs, Hh, Hf, Hq.
Qed.

(** X3 -- the endpoints the metadata advertises are accepted or refused by
    the validator exactly as the issuer is, with the same error: the
    authorization and token endpoints always, the registration and
    revocation endpoints whenever they are there.  An accepted issuer
    therefore advertises only endpoints that meet the issuer rules. *)
Theorem endpoints_validate_like_the_issuer
  (issuer_url : AnyHttpUrl) (service_documentation_url : option AnyHttpUrl)
  (reg : ClientRegistrationOptions) (rev : RevocationOptions) :
  let m := build_metadata issuer_url service_documentation_url reg rev in
  validate_issuer_url (authorization_endpoint m)
  = validate_issuer_url issuer_url
  /\ validate_issuer_url (token_endpoint m)
     = validate_issuer_url issuer_url
  /\ (forall u, registration_endpoint m = Some u ->
        validate_issuer_url u = validate_issuer_url issuer_url)
  /\ (forall u, revocation_endpoint m = Some u ->
        validate_issuer_url u = validate_issuer_url issuer_url).
Proof.
  assert (Hmod : forall f,
             validate_issuer_url (modify_url_path issuer_url f)
             = validate_issuer_url issuer_url)
    by (intros f; now apply validate_issuer_url_reads).
  cbv zeta. unfold build_metadata.
  destruct (registration_enabled reg), (revocation_enabled rev);
    repeat split; try apply Hmod;
    simpl; intros u Hu; try discriminate;
    injection Hu as <-; apply Hmod.
Qed.

(** ** Advertised paths and bound paths *)

Lemma list_ascii_of_string_app (a b : string) :
  list_ascii_of_string (a ++ b)
  = (list_ascii_of_string a ++ list_ascii_of_string b)%list.
Proof.
  induction a as [|x a IH]; simpl; [reflexivity | now rewrite IH].
Qed.

Lemma string_app_inv_tail (a b c : string) : a ++ c = b ++ c -> a = b.
Proof.
  intros H. apply (f_equal list_ascii_of_string) in H.
  rewrite !list_ascii_of_string_app in H. apply app_inv_tail in H.
  apply (f_equal string_of_list_ascii) in H.
  now rewrite !string_of_list_ascii_of_string in H.
Qed.

Lemma rstrip_slashes (n : nat) : Str.rstrip "/" (slashes n) = EmptyString.
Proof.
  induction n as [|n IH]; [reflexivity|].
  unfold slashes in *. simpl. now rewrite IH.
Qed.

Lemma rstrip_empty_iff (s : string) :
  Str.rstrip "/" s = EmptyString <-> only_slashes s.
Proof.
  split.
  - intros H. destruct (rstrip_spec "/" s) as [n [Hs _]].
    rewrite H in Hs. now exists n.
  - intros [n ->]. apply rstrip_slashes.
Qed.

(** The path of a built endpoint: with an issuer path of slashes only it is
    the route path itself, otherwise it never ends with the route path. *)
Lemma joined_path_cases (p body : string) :
  (only_slashes p -> "/" ++ Str.rstrip "/" p ++ body = "/" ++ body)
  /\ (~ only_slashes p ->
      forall t, "/" ++ Str.rstrip "/" p ++ body <> t ++ "/" ++ body).
Proof.
  split.
  - intros H. apply rstrip_empty_iff in H. now rewrite H.
  - intros Hroot t H. destruct (rstrip_spec "/" p) as [n [_ Hend]].
    change ("/" ++ Str.rstrip "/" p ++ body)
      with (("/" ++ Str.rstrip "/" p) ++ body) in H.
    rewrite <- (string_app_assoc t "/" body) in H.
    apply string_app_inv_tail in H.
    destruct t as [|c t]; simpl in H.
    + injection H as H. apply Hroot. now apply rstrip_empty_iff.
    + injection H as _ H. now apply (Hend t).
Qed.

(** X4 -- the advertised endpoints and the bound routes agree on the path
    exactly for an issuer whose path is empty or made of slashes only: then
    each endpoint's path is the route path itself ([/authorize], [/token],
    [/register], [/revoke]); for any other issuer path no endpoint's path
    even ends with its route path, the suffix being glued to the last
    segment without a slash. *)
Theorem advertised_paths_match_routes_iff_root
  (issuer_url : AnyHttpUrl) (service_documentation_url : option AnyHttpUrl)
  (reg : ClientRegistrationOptions) (rev : RevocationOptions) :
  let m := build_metadata issuer_url service_documentation_url reg rev in
  (only_slashes (or_empty (path issuer_url)) ->
   path (authorization_endpoint m) = Some AUTHORIZATION_PATH
   /\ path (token_endpoint m) = Some TOKEN_PATH
   /\ (forall u, registration_endpoint m = Some u ->
         path u = Some REGISTRATION_PATH)
   /\ (forall u, revocation_endpoint m = Some u ->
         path u = Some REVOCATION_PATH))
  /\
  (~ only_slashes (or_empty (path issuer_url)) ->
   ~ ends_with_path (authorization_endpoint m) AUTHORIZATION_PATH
   /\ ~ ends_with_path (token_endpoint m) TOKEN_PATH
   /\ (forall u, registration_endpoint m = Some u ->
         ~ ends_with_path u REGISTRATION_PATH)
   /\ (forall u, revocation_endpoint m = Some u ->
         ~ ends_with_path u REVOCATION_PATH)).
Proof.
  cbv zeta. unfold build_metadata, ends_with_path. split; intros Hroot.
  - destruct (registration_enabled reg), (revocation_enabled rev);
      repeat split; simpl;
      try (intros u Hu; try discriminate; injection Hu as <-; simpl);
      f_equal;
      match goal with
      | |- String "/" (_ ++ ?body) = _ =>
          exact (proj1 (joined_path_cases _ body) Hroot)
      end.
  - destruct (registration_enabled reg), (revocation_enabled rev);
      repeat split; simpl;
      try (intros u Hu; try discriminate; injection Hu as <-; simpl);
      intros [t Ht]; injection Ht as Ht;
      match type of Ht with
      | String "/" (_ ++ ?body) = _ =>
          exact (proj2 (joined_path_cases _ body) Hroot t Ht)
      end.
Qed.

Lemma advertised_paths_match_routes_iff_root_witness :
  path (token_endpoint
          (build_metadata https_auth_example_com None
             disabled_registration disabled_revocation))
  = Some TOKEN_PATH
  /\ ~ ends_with_path
         (token_endpoint
            (build_metadata https_auth_example_com_tenant None
               disabled_registration disabled_revocation))
         TOKEN_PATH.
Proof.
  split.
  - apply (proj1 (advertised_paths_match_routes_iff_root
                    https_auth_example_com None
                    disabled_registration disabled_revocation)).
    exists 1. reflexivity.
  - apply (proj2 (advertised_paths_match_routes_iff_root
                    https_auth_example_com_tenant None
                    disabled_registration disabled_revocation)).
    intros [n Hn]. simpl in Hn.
    destruct n as [|n]; [discriminate|].
    destruct n as [|n]; discriminate.
Defined.

(** ** The route table as a whole *)

Section RouteTableFurtherProperties.

Variable OAuthServerProvider : Type.
Variable default_client_registration_options : ClientRegistrationOptions.
Variable default_revocation_options : RevocationOptions.

Let table := @create_auth_routes OAuthServerProvider
  default_client_registration_options default_revocation_options.

Local Ltac split_flags :=
  repeat match goal with
         | |- context [if ?b then _ else _] => destruct b eqn:?
         end.

Local Ltac pick_route :=
  (left; reflexivity) + (right; pick_route).

Local Ltac some_route :=
  unfold binds; eexists; split;
  [simpl; pick_route | split; [reflexivity | simpl; auto]].

Local Ltac no_such_route :=
  let r := fresh "r" in
  let Hin := fresh "Hin" in
  let Hp := fresh "Hp" in
  let Hm := fresh "Hm" in
  intros (r & Hin & Hp & Hm); simpl in Hin;
  repeat (destruct Hin as [Hin | Hin]; [subst r; simpl in *|]);
  try discriminate; try contradiction;
  repeat (destruct Hm as [Hm | Hm]; try discriminate); try contradiction.

(** X5 -- in the table of a valid issuer, [POST /register] is bound exactly
    when client registration is enabled and [POST /revoke] exactly when
    revocation is enabled, options left out counting as the defaults; the
    table has three routes plus one for each enabled feature, and no two
    routes share a path. *)
Theorem route_table_conditional_bindings
  (provider : OAuthServerProvider) (issuer_url : AnyHttpUrl)
  (service_documentation_url : option AnyHttpUrl)
  (reg : option ClientRegistrationOptions)
  (rev : option RevocationOptions) :
  validate_issuer_url issuer_url = Ok tt ->
  exists routes,
    table provider issuer_url service_documentation_url reg rev = Ok routes
    /\ (binds routes REGISTRATION_PATH "POST"
        <-> registration_enabled
              (or_default reg default_client_registration_options) = true)
    /\ (binds routes REVOCATION_PATH "POST"
        <-> revocation_enabled
              (or_default rev default_revocation_options) = true)
    /\ length routes
       = 3 + (if registration_enabled
                   (or_default reg default_client_registration_options)
              then 1 else 0)
           + (if revocation_enabled
                   (or_default rev default_revocation_options)
              then 1 else 0)
    /\ NoDup (map route_path routes).
Proof.
  intros Hvalid. unfold table, create_auth_routes.
  rewrite Hvalid. simpl bind.
  change (match reg with
          | Some o => o
          | None => default_client_registration_options
          end)
    with (or_default reg default_client_registration_options).
  change (match rev with
          | Some o => o
          | None => default_revocation_options
          end)
    with (or_default rev default_revocation_options).
  set (reg_options := or_default reg default_client_registration_options).
  set (rev_options := or_default rev default_revocation_options).
  eexists. split; [reflexivity|].
  destruct (registration_enabled reg_options) eqn:Ereg,
           (revocation_enabled rev_options) eqn:Erev;
    simpl; repeat apply conj; try reflexivity;
    try (intros _; some_route; fail);
    try no_such_route;
    try (repeat constructor; simpl; intuition discriminate).
Qed.

(** X6 -- the discovery document served at the well-known path is the one
    built from the same issuer and the same options as the table, so it
    advertises a registration endpoint exactly when [POST /register] is
    bound and a revocation endpoint exactly when [POST /revoke] is bound. *)
Theorem served_metadata_agrees_with_routes
  (provider : OAuthServerProvider) (issuer_url : AnyHttpUrl)
  (service_documentation_url : option AnyHttpUrl)
  (reg : option ClientRegistrationOptions)
  (rev : option RevocationOptions) :
  validate_issuer_url issuer_url = Ok tt ->
  exists routes metadata,
    table provider issuer_url service_documentation_url reg rev = Ok routes
    /\ In {| route_path := "/.well-known/oauth-authorization-server";
             endpoint := MetadataHandler metadata;
             methods := ["GET"] |} routes
    /\ metadata
       = build_metadata issuer_url service_documentation_url
           (or_default reg default_client_registration_options)
           (or_default rev default_revocation_options)
    /\ (registration_endpoint metadata <> None
        <-> binds routes REGISTRATION_PATH "POST")
    /\ (revocation_endpoint metadata <> None
        <-> binds routes REVOCATION_PATH "POST")
    /\ (revocation_endpoint_auth_methods_supported metadata <> None
        <-> binds routes REVOCATION_PATH "POST").
Proof.
  intros Hvalid. unfold table, create_auth_routes.
  rewrite Hvalid. simpl bind.
  change (match reg with
          | Some o => o
          | None => default_client_registration_options
          end)
    with (or_default reg default_client_registration_options).
  change (match rev with
          | Some o => o
          | None => default_revocation_options
          end)
    with (or_default rev default_revocation_options).
  set (reg_options := or_default reg default_client_registration_options).
  set (rev_options := or_default rev default_revocation_options).
  do 2 eexists. split; [reflexivity|].
  split; [|split; [reflexivity|]].
  - destruct (registration_enabled reg_options),
             (revocation_enabled rev_options); simpl; auto.
  - unfold build_metadata.
    destruct (registration_enabled reg_options) eqn:Ereg,
             (revocation_enabled rev_options) eqn:Erev;
      simpl; repeat apply conj;
      try (intros _; discriminate);
      try (intros _; some_route; fail);
      try (intros H; now destruct H);
      try (intros H; exfalso; revert H; no_such_route).
Qed.

(** X8 -- in any table the assembler returns, a constructed route accepts
    only [GET], [HEAD] and [POST]; [GET] and [HEAD] are accepted at the
    metadata path and at [/authorize] and nowhere else; the metadata route
    does not accept [POST] and every other route does. *)
Theorem route_table_methods
  (provider : OAuthServerProvider) (issuer_url : AnyHttpUrl)
  (service_documentation_url : option AnyHttpUrl)
  (reg : option ClientRegistrationOptions)
  (rev : option RevocationOptions) (routes : list (Route OAuthServerProvider)) :
  table provider issuer_url service_documentation_url reg rev = Ok routes ->
  forall r, In r routes ->
    (forall m, In m (accepted_methods r) ->
               m = "GET" \/ m = "HEAD" \/ m = "POST")
    /\ (In "GET" (accepted_methods r) <-> In "HEAD" (accepted_methods r))
    /\ (In "GET" (accepted_methods r)
        <-> route_path r = "/.well-known/oauth-authorization-server"
            \/ route_path r = AUTHORIZATION_PATH)
    /\ (In "POST" (accepted_methods r)
        <-> route_path r <> "/.well-known/oauth-authorization-server").
Proof.
  unfold table, create_auth_routes.
  destruct (validate_issuer_url issuer_url) as [[]|e0]; simpl bind;
    [|discriminate].
  intros H. injection H as <-.
  split_flags; intros r Hin; simpl in Hin;
    repeat (destruct Hin as [Hin | Hin]; [subst r|]);
    try contradiction;
    unfold accepted_methods, AUTHORIZATION_PATH, TOKEN_PATH,
      REGISTRATION_PATH, REVOCATION_PATH; simpl;
    (split; [intros m Hm; intuition (subst; auto) | split; [|split]]);
    (split; intros Hm; intuition (try discriminate; try congruence; auto)).
Qed.

End RouteTableFurtherProperties.

Lemma route_table_conditional_bindings_witness :
  exists routes,
    create_auth_routes disabled_registration disabled_revocation
      tt https_auth_example_com None (Some enabled_registration) None
    = Ok routes
    /\ binds routes REGISTRATION_PATH "POST"
    /\ ~ binds routes REVOCATION_PATH "POST"
    /\ length routes = 4.
Proof.
  destruct (route_table_conditional_bindings unit
              disabled_registration disabled_revocation
              tt https_auth_example_com None
              (Some enabled_registration) None eq_refl)
    as (routes & Htable & Hreg & Hrev & Hlen & _).
  exists routes. repeat split.
  - exact Htable.
  - apply Hreg. reflexivity.
  - intros H. apply Hrev in H. discriminate.
  - exact Hlen.
Defined.

Lemma served_metadata_agrees_with_routes_witness :
  exists routes metadata,
    create_auth_routes disabled_registration disabled_revocation
      tt https_auth_example_com None None (Some enabled_revocation)
    = Ok routes
    /\ metadata
       = build_metadata https_auth_example_com None
           disabled_registration enabled_revocation
    /\ (revocation_endpoint metadata <> None
        <-> binds routes REVOCATION_PATH "POST").
Proof.
  destruct (served_metadata_agrees_with_routes unit
              disabled_registration disabled_revocation
              tt https_auth_example_com None
              None (Some enabled_revocation) eq_refl)
    as (routes & metadata & Htable & _ & Hmeta & _ & Hrev & _).
  exists routes, metadata. repeat split; try assumption; apply Hrev.
Defined.

Lemma route_table_methods_witness :
  In "HEAD" (accepted_methods
               {| route_path := AUTHORIZATION_PATH;
                  endpoint := AuthorizationHandler tt;
                  methods := ["GET"; "POST"] |})
  /\ In "POST" (accepted_methods
                  {| route_path := TOKEN_PATH;
                     endpoint := TokenHandler tt
                                   {| authenticator_provider := tt |};
                     methods := ["POST"] |}).
Proof.
  split.
  - destruct (route_table_methods unit disabled_registration
                disabled_revocation tt https_auth_example_com
                None None None _ eq_refl
                {| route_path := AUTHORIZATION_PATH;
                   endpoint := AuthorizationHandler tt;
                   methods := ["GET"; "POST"] |})
      as (_ & Hhead & Hget & _).
    + simpl. auto.
    + apply Hhead, Hget. now right.
  - destruct (route_table_methods unit disabled_registration
                disabled_revocation tt https_auth_example_com
                None None None _ eq_refl
                {| route_path := TOKEN_PATH;
                   endpoint := TokenHandler tt
                                 {| authenticator_provider := tt |};
                   methods := ["POST"] |})
      as (_ & _ & _ & Hpost).
    + simpl. auto.
    + apply Hpost. discriminate.
Defined.

(** ** The redirect-URI helper on a base that has a query *)

Lemma iter_yields_characters (s : string) :
  Forall one_character (Str.iter s).
Proof.
  induction s as [|c s IH]; simpl; [constructor|].
  destruct (Str.iter s) as [|[|d tl] t] eqn:E.
  - repeat constructor. exists c, EmptyString. now split.
  - constructor; [|exact IH]. exists c, EmptyString. now split.
  - inversion IH as [|h t' Hh Ht]; subst.
    destruct Hh as (c' & tl' & Heq & Hcont). injection Heq as <- <-.
    destruct (Str.is_continuation d) eqn:Ed.
    + constructor; [|exact Ht].
      exists c, (String d tl). split; [reflexivity|]. simpl.
      now rewrite Ed, Hcont.
    + constructor; [|now constructor; [exists d, tl|]].
      exists c, EmptyString. now split.
Qed.

Lemma iter_one_character (h : string) :
  one_character h -> Str.iter h = [h].
Proof.
  intros (c & t & -> & Hcont).
  assert (Ht : Str.iter t = [] /\ t = EmptyString
               \/ exists d tl, t = String d tl
                               /\ Str.is_continuation d = true
                               /\ Str.iter t = [t]).
  { induction t as [|d t IH]; [now left|]. right.
    simpl in Hcont. apply andb_prop in Hcont. destruct Hcont as [Hd Ht].
    exists d, t. repeat split; [exact Hd|].
    destruct (IH Ht) as [[E ->] | (d' & tl & -> & Hd' & E)].
    - reflexivity.
    - change (Str.iter (String d (String d' tl)))
        with (match Str.iter (String d' tl) with
              | (String d0 _ as h) :: t0 =>
                  if Str.is_continuation d0 then String d h :: t0
                  else String d EmptyString :: h :: t0
              | t0 => String d EmptyString :: t0
              end).
      rewrite E. now rewrite Hd'. }
  destruct Ht as [[E ->] | (d & tl & -> & Hd & E)]; [reflexivity|].
  change (Str.iter (String c (String d tl)))
    with (match Str.iter (String d tl) with
          | (String d0 _ as h) :: t0 =>
              if Str.is_continuation d0 then String c h :: t0
              else String c EmptyString :: h :: t0
          | t0 => String c EmptyString :: t0
          end).
  rewrite E. now rewrite Hd.
Qed.

Lemma unpack2_two_characters (key : string) :
  Str.len key = 2 -> unpack2 key = Ok (name_halves key).
Proof.
  unfold Str.len, unpack2, name_halves.
  destruct (Str.iter key) as [|a [|b [|c l]]]; simpl; try discriminate.
  reflexivity.
Qed.

Lemma unpack2_other_length (key : string) :
  Str.len key <> 2 -> raises (unpack2 key).
Proof.
  unfold Str.len, unpack2.
  destruct (Str.iter key) as [|a [|b [|c l]]]; simpl; intros H;
    try (now destruct H); eexists; reflexivity.
Qed.

(** The comprehension over the names: it yields one pair per name when
    every name has two characters and raises otherwise. *)
Lemma comprehension_over_names (names : list string) :
  let body := fun key =>
    kvs <- unpack2 key ;;
    let '(k, vs) := kvs in
    Ok (map (fun v => (k, v)) (Str.iter vs)) in
  (Forall (fun key => Str.len key = 2) names ->
   for_each body names = Ok (map name_halves names))
  /\ (Exists (fun key => Str.len key <> 2) names ->
      raises (for_each body names)).
Proof.
  cbv zeta. split.
  - induction 1 as [|key names Hkey _ IH]; [reflexivity|].
    assert (Hsecond : Str.iter (snd (name_halves key))
                      = [snd (name_halves key)]).
    { apply iter_one_character. unfold name_halves, Str.len in *. simpl.
      pose proof (iter_yields_characters key) as Hall.
      destruct (Str.iter key) as [|a [|b [|c l]]]; try discriminate.
      inversion Hall as [|? ? _ Hb]; subst.
      now inversion Hb. }
    simpl for_each. rewrite (unpack2_two_characters key Hkey).
    destruct (name_halves key) as [k vs] eqn:Ehalves. simpl in Hsecond.
    simpl bind. rewrite IH. simpl bind. rewrite Hsecond.
    simpl. now rewrite Ehalves.
  - induction 1 as [key names Hkey | key names _ IH]; simpl.
    + destruct (unpack2_other_length key Hkey) as [e ->].
      eexists. reflexivity.
    + destruct (unpack2 key) as [[k vs]|e]; simpl bind;
        [|eexists; reflexivity].
      destruct IH as [e ->]. eexists. reflexivity.
Qed.




(** X10 -- when the base parses, its network location is ASCII and every
    name of its query has two characters once decoded, the helper returns,
    and the query it writes starts with one pair per name, the name's first
    character as name and its second as value, followed by the supplied
    parameters; the values the base's query carried are not in the
    result. *)
Theorem construct_redirect_uri_two_character_names
  (redirect_uri_base : string) (parsed_uri : urllib_parse.ParseResult)
  (params : list (string * option string)) :
  urllib_parse.urlparse redirect_uri_base = Ok parsed_uri ->
  Str.isascii (urllib_parse.netloc parsed_uri) = true ->
  Forall (fun key => Str.len key = 2) (existing_names parsed_uri) ->
  construct_redirect_uri redirect_uri_base params
  = Ok (urllib_parse.urlunparse
          (urllib_parse.replace_query parsed_uri
             (urllib_parse.urlencode
                (map name_halves (existing_names parsed_uri)
                 ++ supplied params)%list))).
Proof.
  intros Hparse _ Hnames. unfold construct_redirect_uri.
  rewrite Hparse. simpl bind. fold (existing_names parsed_uri).
  destruct (comprehension_over_names (existing_names parsed_uri))
    as [Hall _].
  cbv zeta in Hall. rewrite (Hall Hnames). simpl bind.
  now rewrite append_params.
Qed.

Lemma construct_redirect_uri_two_character_names_witness :
  construct_redirect_uri "https://cb.example.com/cb?a%C3%A9=7&to=home#top"
    [("code", Some "abc")]
  = Ok "https://cb.example.com/cb?a=%C3%A9&t=o&code=abc#top".
Proof.
  rewrite (construct_redirect_uri_two_character_names
             "https://cb.example.com/cb?a%C3%A9=7&to=home#top"
             {| urllib_parse.scheme := "https";
                urllib_parse.netloc := "cb.example.com";
                urllib_parse.path := "/cb";
                urllib_parse.params := "";
                urllib_parse.query := "a%C3%A9=7&to=home";
                urllib_parse.fragment := "top" |}
             [("code", Some "abc")] eq_refl eq_refl).
  - reflexivity.
  - repeat constructor.
Defined.

Lemma supplied_with_values (l : list (string * string)) :
  supplied (with_values l) = l.
Proof.
  induction l as [|[k v] l IH]; simpl; [reflexivity | now rewrite IH].
Qed.

(** X11 -- a parameter passed without a value has no effect at all: the
    call gives the same result, or raises the same error, as the call with
    only the parameters that have a value, in the same order.  A value that
    is the empty string counts as a value. *)
Theorem construct_redirect_uri_skips_absent
  (redirect_uri_base : string) (params : list (string * option string)) :
  construct_redirect_uri redirect_uri_base params
  = construct_redirect_uri redirect_uri_base (with_values (supplied params)).
Proof.
  unfold construct_redirect_uri.
  destruct (urllib_parse.urlparse redirect_uri_base) as [p|e];
    simpl bind; [|reflexivity].
  destruct (for_each _ _) as [existing|e]; simpl bind; [|reflexivity].
  now rewrite !append_params, supplied_with_values.
Qed.

(** ** Reading back the query the helper writes *)

Local Ltac each_character c :=
  destruct c as [[] [] [] [] [] [] [] []].

Lemma quote_without_space (c : ascii) (rest : string) :
  c <> " "%char ->
  urllib_parse.quote "" (String c rest)
  = quote_plus_char c ++ urllib_parse.quote "" rest.
Proof.
  each_character c; intros H; try reflexivity; now destruct H.
Qed.

Lemma quote_with_space (c : ascii) (rest : string) :
  Str.replace " " "+" (urllib_parse.quote " " (String c rest))
  = quote_plus_char c ++ Str.replace " " "+" (urllib_parse.quote " " rest).
Proof.
  each_character c; reflexivity.
Qed.

(** [quote_plus] works character by character. *)
Lemma quote_plus_by_character (s : string) :
  urllib_parse.quote_plus s = quote_plus_chars s.
Proof.
  unfold urllib_parse.quote_plus.
  destruct (Str.contains s " ") eqn:E; simpl negb; cbv iota.
  - clear E. induction s as [|c s IH]; [reflexivity|].
    rewrite quote_with_space. simpl. now rewrite IH.
  - induction s as [|c s IH]; [reflexivity|].
    simpl in E. apply orb_false_elim in E. destruct E as [Ec Es].
    rewrite quote_without_space.
    + simpl. now rewrite (IH Es).
    + intros ->. discriminate.
Qed.

Lemma unquote_plus_character (c : ascii) (rest : string) :
  urllib_parse.unquote_to_bytes
    (Str.replace "+" " " (quote_plus_char c ++ rest))
  = String c (urllib_parse.unquote_to_bytes (Str.replace "+" " " rest)).
Proof.
  each_character c; reflexivity.
Qed.

Lemma unquote_to_bytes_without_percent (t : string) :
  Str.contains t "%" = false -> urllib_parse.unquote_to_bytes t = t.
Proof.
  induction t as [|c t IH]; simpl; intros H; [reflexivity|].
  apply orb_false_elim in H. destruct H as [Hc Ht].
  now rewrite Hc, (IH Ht).
Qed.

(** Decoding what [quote_plus] wrote gives the text back. *)
Lemma unquote_plus_quote_plus (s : string) :
  well_formed s ->
  urllib_parse.unquote (Str.replace "+" " " (urllib_parse.quote_plus s)) = s.
Proof.
  intros Hs.
  assert (Hbytes : urllib_parse.unquote_to_bytes
                     (Str.replace "+" " " (urllib_parse.quote_plus s)) = s).
  { rewrite quote_plus_by_character. clear Hs.
    induction s as [|c s IH]; [reflexivity|].
    simpl. rewrite unquote_plus_character. now rewrite IH. }
  unfold urllib_parse.unquote.
  destruct (Str.contains _ "%") eqn:E; simpl negb; cbv iota.
  - rewrite Hbytes. exact Hs.
  - now rewrite <- (unquote_to_bytes_without_percent _ E).
Qed.

Lemma contains_app (a b : string) (c : ascii) :
  Str.contains (a ++ b) c = Str.contains a c || Str.contains b c.
Proof.
  induction a as [|x a IH]; simpl; [reflexivity|].
  now rewrite IH, orb_assoc.
Qed.

Lemma quote_plus_character_is_plain (c : ascii) :
  Str.contains (quote_plus_char c) "&" = false
  /\ Str.contains (quote_plus_char c) "=" = false
  /\ Str.truthy (quote_plus_char c) = true.
Proof.
  each_character c; repeat split; reflexivity.
Qed.

(** What [quote_plus] writes has no ['&'] and no ['='], and is empty only
    for the empty text. *)
Lemma quote_plus_is_plain (s : string) :
  Str.contains (urllib_parse.quote_plus s) "&" = false
  /\ Str.contains (urllib_parse.quote_plus s) "=" = false
  /\ Str.truthy (urllib_parse.quote_plus s) = Str.truthy s.
Proof.
  rewrite quote_plus_by_character.
  induction s as [|c s (IH1 & IH2 & _)]; [now repeat split|].
  destruct (quote_plus_character_is_plain c) as (H1 & H2 & H3).
  simpl quote_plus_chars. rewrite !contains_app, H1, H2, IH1, IH2.
  repeat split.
  destruct (quote_plus_char c); [discriminate | reflexivity].
Qed.

Lemma split_never_empty (sep : ascii) (s : string) : Str.split sep s <> [].
Proof.
  destruct s as [|c s]; simpl; [discriminate|].
  destruct (Ascii.eqb c sep); [discriminate|].
  destruct (Str.split sep s); discriminate.
Qed.

Lemma split_without_separator (sep : ascii) (f : string) :
  Str.contains f sep = false ->
  Str.split sep f = [f]
  /\ forall t, Str.split sep (f ++ String sep t) = f :: Str.split sep t.
Proof.
  induction f as [|c f IH]; simpl; intros H.
  - split; [reflexivity|]. intros t. now rewrite Ascii.eqb_refl.
  - apply orb_false_elim in H. destruct H as [Hc Hf].
    destruct (IH Hf) as [IH1 IH2]. rewrite Hc. split.
    + now rewrite IH1.
    + intros t. now rewrite IH2.
Qed.

Lemma partition_without_separator (sep : ascii) (f t : string) :
  Str.contains f sep = false ->
  Str.partition sep (f ++ String sep t) = (f, Some t).
Proof.
  induction f as [|c f IH]; simpl; intros H.
  - now rewrite Ascii.eqb_refl.
  - apply orb_false_elim in H. destruct H as [Hc Hf].
    now rewrite Hc, (IH Hf).
Qed.

Lemma query_field_is_plain (kv : string * string) :
  Str.contains (query_field kv) "&" = false
  /\ Str.truthy (query_field kv) = true.
Proof.
  destruct kv as [k v]. unfold query_field. simpl fst. simpl snd.
  destruct (quote_plus_is_plain k) as (Hk & _ & _).
  destruct (quote_plus_is_plain v) as (Hv & _ & _).
  split.
  - rewrite !contains_app, Hk, Hv. reflexivity.
  - destruct (urllib_parse.quote_plus k); reflexivity.
Qed.

Lemma urlencode_fields (l : list (string * string)) :
  urllib_parse.urlencode l = Str.join "&" (map query_field l).
Proof.
  unfold urllib_parse.urlencode. f_equal.
  apply map_ext. now intros [k v].
Qed.

Lemma split_join_fields (kv : string * string) (l : list (string * string)) :
  Str.truthy (Str.join "&" (map query_field (kv :: l))) = true
  /\ Str.split "&" (Str.join "&" (map query_field (kv :: l)))
     = map query_field (kv :: l).
Proof.
  revert kv. induction l as [|kv' l IH]; intros kv.
  - destruct (query_field_is_plain kv) as [Hamp Hne]. simpl.
    split; [exact Hne|].
    now destruct (split_without_separator "&" _ Hamp) as [-> _].
  - destruct (query_field_is_plain kv) as [Hamp Hne].
    destruct (IH kv') as [_ IHs].
    change (map query_field (kv :: kv' :: l))
      with (query_field kv :: map query_field (kv' :: l)).
    change (Str.join "&" (query_field kv :: map query_field (kv' :: l)))
      with (query_field kv
            ++ String "&" (Str.join "&" (map query_field (kv' :: l)))).
    split.
    + destruct (query_field kv); [discriminate | reflexivity].
    + destruct (split_without_separator "&" _ Hamp) as [_ ->].
      now rewrite IHs.
Qed.

(** Parsing an encoded query gives back the pairs that were encoded, in
    order, except those with an empty value, which the parser drops. *)
Lemma parse_qsl_urlencode (l : list (string * string)) :
  Forall well_formed_pair l ->
  urllib_parse.parse_qsl (urllib_parse.urlencode l) = filter has_value l.
Proof.
  intros Hl. rewrite urlencode_fields. unfold urllib_parse.parse_qsl.
  destruct l as [|kv l]; [reflexivity|].
  destruct (split_join_fields kv l) as [-> ->].
  revert Hl. generalize (kv :: l). clear kv l.
  induction l as [|[k v] l IH]; intros Hl; [reflexivity|].
  inversion Hl as [|? ? [Hk0 Hv0] Hl']; subst. simpl in Hk0, Hv0.
  change (map query_field ((k, v) :: l))
    with (query_field (k, v) :: map query_field l).
  cbn [flat_map]. rewrite (IH Hl'). unfold query_field at 1.
  simpl fst. simpl snd.
  destruct (quote_plus_is_plain k) as (_ & Hk & _).
  destruct (quote_plus_is_plain v) as (_ & _ & Hv).
  change (urllib_parse.quote_plus k ++ "=" ++ urllib_parse.quote_plus v)
    with (urllib_parse.quote_plus k
          ++ String "=" (urllib_parse.quote_plus v)).
  rewrite (partition_without_separator "=" _ _ Hk), Hv.
  rewrite (unquote_plus_quote_plus k Hk0), (unquote_plus_quote_plus v Hv0).
  change (filter has_value ((k, v) :: l))
    with (if Str.truthy v
          then (k, v) :: filter has_value l
          else filter has_value l).
  destruct (Str.truthy v); reflexivity.
Qed.

Lemma urlencode_encoded_query (l : list (string * string)) :
  urllib_parse.urlencode l = encoded_query l.
Proof.
  unfold urllib_parse.urlencode, encoded_query. f_equal.
  apply map_ext. intros [k v]. simpl.
  now rewrite !quote_plus_by_character.
Qed.

Lemma quote_plus_chars_has_no (c : ascii) (s : string) :
  c = "#"%char \/ c = "?"%char ->
  Str.contains (quote_plus_chars s) c = false.
Proof.
  intros Hc. induction s as [|x s IH]; [reflexivity|].
  simpl. rewrite contains_app, IH.
  destruct Hc as [-> | ->]; each_character x; reflexivity.
Qed.

(** The encoded query has no ['#'] and no ['?']. *)
Lemma encoded_query_has_no (c : ascii) (l : list (string * string)) :
  c = "#"%char \/ c = "?"%char ->
  Str.contains (encoded_query l) c = false.
Proof.
  intros Hc. unfold encoded_query.
  induction l as [|[k v] l IH]; [reflexivity|].
  assert (Hfield : Str.contains (quote_plus_chars k ++ "="
                                 ++ quote_plus_chars v) c = false).
  { rewrite !contains_app, !(quote_plus_chars_has_no c) by exact Hc.
    destruct Hc as [-> | ->]; reflexivity. }
  destruct l as [|kv' l]; [exact Hfield|].
  change (Str.contains
            ((quote_plus_chars k ++ "=" ++ quote_plus_chars v)
             ++ "&"
             ++ Str.join "&"
                  (map (fun kv => quote_plus_chars (fst kv) ++ "="
                                  ++ quote_plus_chars (snd kv))
                     (kv' :: l))) c = false).
  rewrite contains_app, Hfield, contains_app, IH.
  destruct Hc as [-> | ->]; reflexivity.
Qed.

(** X12 -- whenever the helper returns from a base with an ASCII network
    location, whoever parses the query it wrote gets back, in order, the
    pairs the helper put in (one per name of the base's query, then the
    supplied parameters), whatever characters the names and values
    contain; only the pairs with an empty value are missing, the query
    parser dropping them.  No supplied value can add a field, cut a field
    short or reach the fragment. *)
Theorem construct_redirect_uri_query_round_trip
  (redirect_uri_base : string) (parsed_uri : urllib_parse.ParseResult)
  (params : list (string * option string)) :
  urllib_parse.urlparse redirect_uri_base = Ok parsed_uri ->
  Str.isascii (urllib_parse.netloc parsed_uri) = true ->
  Forall (fun key => Str.len key = 2) (existing_names parsed_uri) ->
  Forall well_formed_pair
    (map name_halves (existing_names parsed_uri) ++ supplied params)%list ->
  exists result_uri,
    construct_redirect_uri redirect_uri_base params
    = Ok (urllib_parse.urlunparse result_uri)
    /\ urllib_parse.parse_qsl (urllib_parse.query result_uri)
       = filter has_value
           (map name_halves (existing_names parsed_uri)
            ++ supplied params)%list
    /\ Str.contains (urllib_parse.query result_uri) "#" = false.
Proof.
  intros Hparse _ Hnames Hwf.
  exists (urllib_parse.replace_query parsed_uri
            (urllib_parse.urlencode
               (map name_halves (existing_names parsed_uri)
                ++ supplied params)%list)).
  repeat split.
  - unfold construct_redirect_uri.
    rewrite Hparse. simpl bind. fold (existing_names parsed_uri).
    destruct (comprehension_over_names (existing_names parsed_uri))
      as [Hall _].
    cbv zeta in Hall. rewrite (Hall Hnames). simpl bind.
    now rewrite append_params.
  - simpl. now apply parse_qsl_urlencode.
  - simpl. rewrite urlencode_encoded_query.
    apply encoded_query_has_no. now left.
Qed.

Lemma construct_redirect_uri_query_round_trip_witness :
  exists result_uri,
    construct_redirect_uri "https://cb.example.com/cb?a%C3%A9=7&to=#top"
      [("state", Some "a&b=c#d e"); ("error", None); ("code", Some "")]
    = Ok (urllib_parse.urlunparse result_uri)
    /\ urllib_parse.parse_qsl (urllib_parse.query result_uri)
       = [("a", e_acute); ("state", "a&b=c#d e")].
Proof.
  destruct (construct_redirect_uri_query_round_trip
              "https://cb.example.com/cb?a%C3%A9=7&to=#top"
              {| urllib_parse.scheme := "https";
                 urllib_parse.netloc := "cb.example.com";
                 urllib_parse.path := "/cb";
                 urllib_parse.params := "";
                 urllib_parse.query := "a%C3%A9=7&to=";
                 urllib_parse.fragment := "top" |}
              [("state", Some "a&b=c#d e"); ("error", None);
               ("code", Some "")]
              eq_refl eq_refl)
    as (result_uri & Hcall & Hparse & _).
  - repeat constructor.
  - repeat constructor.
  - exists result_uri. split; [exact Hcall | exact Hparse].
Defined.

(** ** The text the helper returns *)

Lemma urlunparse_in_three_parts (p : urllib_parse.ParseResult) (q : string) :
  urllib_parse.urlunparse (urllib_parse.replace_query p q)
  = text_before_query p ++ query_text q ++ fragment_text p.
Proof.
  destruct p as [sch net pth prm qry frg].
  unfold text_before_query, query_text, fragment_text,
    urllib_parse.urlunparse, urllib_parse.urlunsplit,
    urllib_parse.replace_query.
  cbn [urllib_parse.scheme urllib_parse.netloc urllib_parse.path
       urllib_parse.params urllib_parse.query urllib_parse.fragment
       Str.truthy].
  destruct (Str.truthy q), (Str.truthy frg);
    rewrite ?string_app_assoc, ?string_app_empty_r; reflexivity.
Qed.

(** X13 -- whenever the helper returns, its result and the base put back
    together differ in the query alone: both start with the same text for
    scheme, network location, path and path parameters, both end with the
    base's fragment, and the query the helper wrote stands between the two
    and contains no ['#']. *)
Theorem construct_redirect_uri_changes_query_only
  (redirect_uri_base : string) (parsed_uri : urllib_parse.ParseResult)
  (params : list (string * option string)) (redirect_uri : string) :
  urllib_parse.urlparse redirect_uri_base = Ok parsed_uri ->
  construct_redirect_uri redirect_uri_base params = Ok redirect_uri ->
  exists q,
    redirect_uri
    = text_before_query parsed_uri ++ query_text q
      ++ fragment_text parsed_uri
    /\ urllib_parse.urlunparse parsed_uri
       = text_before_query parsed_uri
         ++ query_text (urllib_parse.query parsed_uri)
         ++ fragment_text parsed_uri
    /\ Str.contains q "#" = false.
Proof.
  intros Hparse Hcall. unfold construct_redirect_uri in Hcall.
  rewrite Hparse in Hcall. simpl bind in Hcall.
  destruct (for_each _ _) as [existing|e]; simpl bind in Hcall;
    [|discriminate].
  injection Hcall as <-. rewrite append_params.
  exists (urllib_parse.urlencode (existing ++ supplied params)%list).
  repeat split.
  - apply urlunparse_in_three_parts.
  - rewrite <- urlunparse_in_three_parts. now destruct parsed_uri.
  - generalize (existing ++ supplied params)%list. intros l.
    rewrite urlencode_fields.
    induction l as [|[k v] l IH]; [reflexivity|].
    assert (Hfield : Str.contains (query_field (k, v)) "#" = false).
    { unfold query_field. simpl fst. simpl snd.
      rewrite !quote_plus_by_character, !contains_app.
      assert (Hq : forall s, Str.contains (quote_plus_chars s) "#" = false).
      { induction s as [|c s IHs]; [reflexivity|].
        simpl. rewrite contains_app, IHs.
        each_character c; reflexivity. }
      now rewrite !Hq. }
    destruct l as [|kv' l]; [exact Hfield|].
    change (Str.join "&" (map query_field ((k, v) :: kv' :: l)))
      with (query_field (k, v)
            ++ "&" ++ Str.join "&" (map query_field (kv' :: l))).
    rewrite !contains_app, Hfield, IH. reflexivity.
Qed.

Lemma construct_redirect_uri_changes_query_only_witness :
  exists q,
    "https://cb.example.com/cb?t=o&code=abc#top"
    = "https://cb.example.com/cb" ++ query_text q ++ "#top"
    /\ Str.contains q "#" = false.
Proof.
  destruct (construct_redirect_uri_changes_query_only
              "https://cb.example.com/cb?to=home#top"
              {| urllib_parse.scheme := "https";
                 urllib_parse.netloc := "cb.example.com";
                 urllib_parse.path := "/cb";
                 urllib_parse.params := "";
                 urllib_parse.query := "to=home";
                 urllib_parse.fragment := "top" |}
              [("code", Some "abc")]
              "https://cb.example.com/cb?t=o&code=abc#top"
              eq_refl eq_refl)
    as (q & Hq & _ & Hsharp).
  exists q. split; [exact Hq | exact Hsharp].
Defined.

(** ** The redirect-URI helper on a base without a query *)

(** C10 -- counterexample.  The base [https:cb] has no query; the helper
    returns [https:///cb?code=abc], which is not the base followed by the
    query and whose path, read back, is [/cb] where the base's is [cb]. *)
Lemma construct_redirect_uri_rewrites_the_base :
  exists parsed_base redirect_uri parsed_uri,
    urllib_parse.urlparse "https:cb" = Ok parsed_base
    /\ urllib_parse.query parsed_base = EmptyString
    /\ construct_redirect_uri "https:cb" [("code", Some "abc")]
       = Ok redirect_uri
    /\ redirect_uri = "https:///cb?code=abc"
    /\ redirect_uri <> "https:cb" ++ "?code=abc"
    /\ urllib_parse.urlparse redirect_uri = Ok parsed_uri
    /\ urllib_parse.query parsed_uri = "code=abc"
    /\ urllib_parse.path parsed_base = "cb"
    /\ urllib_parse.path parsed_uri = "/cb"
    /\ urllib_parse.path parsed_uri <> urllib_parse.path parsed_base.
Proof.
  do 3 eexists. repeat split; try reflexivity; discriminate.
Qed.

(** C10, amended -- for every base that parses, with an ASCII network
    location and no query, the helper returns the text put together from
    the base's scheme, network location, path and path parameters, then,
    when a parameter with a value was supplied, ['?'] and the supplied
    parameters that have a value, in call order, each written name, ['='],
    value, percent-encoded character by character and joined by ['&'],
    then the base's fragment.  That text is the base put back together
    with the query inserted before the fragment; it is the base itself
    followed by the query when putting the base back together gives the
    base and the base has no fragment.  The query has no ['#'] and no
    ['?'], and parsing it gives back the supplied pairs that have a
    non-empty value. *)
Theorem construct_redirect_uri_inserts_query
  (redirect_uri_base : string) (parsed_uri : urllib_parse.ParseResult)
  (params : list (string * option string)) :
  urllib_parse.urlparse redirect_uri_base = Ok parsed_uri ->
  Str.isascii (urllib_parse.netloc parsed_uri) = true ->
  urllib_parse.query parsed_uri = EmptyString ->
  let q := encoded_query (supplied params) in
  construct_redirect_uri redirect_uri_base params
  = Ok (text_before_query parsed_uri ++ query_text q
        ++ fragment_text parsed_uri)
  /\ urllib_parse.urlunparse parsed_uri
     = text_before_query parsed_uri ++ fragment_text parsed_uri
  /\ (urllib_parse.urlunparse parsed_uri = redirect_uri_base ->
      urllib_parse.fragment parsed_uri = EmptyString ->
      construct_redirect_uri redirect_uri_base params
      = Ok (redirect_uri_base ++ query_text q))
  /\ Str.contains q "#" = false
  /\ Str.contains q "?" = false
  /\ (Forall well_formed_pair (supplied params) ->
      urllib_parse.parse_qsl q = filter has_value (supplied params)).
Proof.
  intros Hparse _ Hquery. cbv zeta.
  assert (Hcall : construct_redirect_uri redirect_uri_base params
                  = Ok (text_before_query parsed_uri
                        ++ query_text (encoded_query (supplied params))
                        ++ fragment_text parsed_uri)).
  { unfold construct_redirect_uri.
    rewrite Hparse. simpl bind. rewrite Hquery. simpl.
    rewrite append_params. simpl.
    now rewrite urlunparse_in_three_parts, urlencode_encoded_query. }
  assert (Hbase : urllib_parse.urlunparse parsed_uri
                  = text_before_query parsed_uri
                    ++ fragment_text parsed_uri).
  { transitivity (urllib_parse.urlunparse
                    (urllib_parse.replace_query parsed_uri EmptyString)).
    - destruct parsed_uri. simpl in Hquery. now subst.
    - now rewrite urlunparse_in_three_parts. }
  repeat split.
  - exact Hcall.
  - exact Hbase.
  - intros Hsame Hfragment. rewrite Hcall. rewrite <- Hsame, Hbase.
    unfold fragment_text. rewrite Hfragment. simpl.
    now rewrite !string_app_empty_r.
  - apply encoded_query_has_no. now left.
  - apply encoded_query_has_no. now right.
  - intros Hwf. rewrite <- urlencode_encoded_query.
    now apply parse_qsl_urlencode.
Qed.

Lemma construct_redirect_uri_inserts_query_witness :
  construct_redirect_uri "http://[::1]:8080/cb#done"
    [("state", Some "a&b=c#d e"); ("error", None); ("code", Some "abc")]
  = Ok "http://[::1]:8080/cb?state=a%26b%3Dc%23d+e&code=abc#done"
  /\ construct_redirect_uri "https://cb.example.com/cb"
       [("code", Some "abc"); ("state", None)]
     = Ok ("https://cb.example.com/cb" ++ "?code=abc").
Proof.
  split.
  - apply (construct_redirect_uri_inserts_query
             "http://[::1]:8080/cb#done"
             {| urllib_parse.scheme := "http";
                urllib_parse.netloc := "[::1]:8080";
                urllib_parse.path := "/cb";
                urllib_parse.params := "";
                urllib_parse.query := "";
                urllib_parse.fragment := "done" |}
             [("state", Some "a&b=c#d e"); ("error", None);
              ("code", Some "abc")]
             eq_refl eq_refl eq_refl).
  - apply (construct_redirect_uri_inserts_query
             "https://cb.example.com/cb"
             {| urllib_parse.scheme := "https";
                urllib_parse.netloc := "cb.example.com";
                urllib_parse.path := "/cb";
                urllib_parse.params := "";
                urllib_parse.query := "";
                urllib_parse.fragment := "" |}
             [("code", Some "abc"); ("state", None)]
             eq_refl eq_refl eq_refl);
      reflexivity.
Defined.
